(** * staticmap-mcp: projection and label placement of [render_route_map]

    A shallow embedding of [src/staticmap_mcp/server.py] and of the mock
    renderer of [tests/test_server.py].

    Numbers.  Python integers are [Z]; [int(x)] on a float truncates toward
    zero and [//] is floor division.  Python floats are embedded as the real
    numbers they stand for, in two ways.  In the first part every float
    operation is taken as exact ([x_tile], [y_tile], [_geo_to_pixel]) and
    every collaborator call as returning ([render_route_map]); it carries
    the statements that do not depend on rounding or on a call failing.  In
    the second part every float operation rounds its exact result with
    [fl_rnd], the functions of [math] are the platform's, and every call to
    a collaborator returns or raises ([_geo_to_pixel_b64],
    [render_route_map_b64]); the first part is its instance at exact
    arithmetic and collaborators that return.  In both, the partial
    operations keep their Python behaviour: a float division by zero raises
    [ZeroDivisionError], [math.log] of a number that is not positive raises
    [ValueError]. *)

From Stdlib Require Import Reals Lra Lia ZArith String List.
From stdpp Require Import gmap strings.
Import ListNotations.

Local Open Scope string_scope.
Local Open Scope Z_scope.
Local Open Scope R_scope.

(** ** Exceptions and results *)

(** [OSError] stands for the class and its subclasses; [Exception] for any
    other exception a collaborator raises, by name. *)
Inductive exn : Type :=
  | ZeroDivisionError
  | ValueError
  | IndexError
  | KeyError
  | OSError
  | Exception (name : string).

Inductive result (A : Type) : Type :=
  | Ret (a : A)
  | Raise (e : exn).

Arguments Ret {A} a.
Arguments Raise {A} e.

(** [result] is a monad: [x ← c; k] runs [k] on the value of [c] and
    propagates an exception of [c]. *)
#[export] Instance result_ret : MRet result := fun _ a => Ret a.

#[export] Instance result_bind : MBind result := fun _ _ k r =>
  match r with
  | Ret a => k a
  | Raise e => Raise e
  end.

(** ** Python numeric primitives *)

(** [int(x)] for a float [x]: truncation toward zero. *)
Definition py_int (x : R) : Z :=
  if Rle_dec 0 x then Zfloor x else Zceil x.

(** [a / b] on floats.  Used where the divisor is computed; a division by
    a non-zero literal ([360.0], [2.0], [math.pi]) cannot raise and is
    written [/]. *)
Definition py_truediv (a b : R) : result R :=
  if Req_dec_T b 0 then Raise ZeroDivisionError else Ret (a / b).

(** [math.radians], [math.log]; [math.tan], [math.cos] and [math.pi] are
    [tan], [cos] and [PI]. *)
Definition math_radians (deg : R) : R := deg * (PI / 180).

Definition math_log (x : R) : result R :=
  if Rlt_dec 0 x then Ret (ln x) else Raise ValueError.

(** [2**zoom] for an integer [zoom] (a float below one when [zoom] is
    negative). *)
Definition pow2 (zoom : Z) : R := powerRZ 2 zoom.

(** ** The map object

    A [StaticMap] as the program uses it: the constructor arguments, the
    lines and markers added to it, and the zoom and tile-space centre that
    [render()] sets and [_geo_to_pixel] reads. *)

Record Line : Type := mkLine {
  line_coords : list (R * R);
  line_color : string;
  line_width : Z
}.

Record CircleMarker : Type := mkCircleMarker {
  marker_coord : R * R;
  marker_color : string;
  marker_width : Z
}.

Record StaticMap : Type := mkStaticMap {
  width : Z;
  height : Z;
  padding_x : Z;
  padding_y : Z;
  url_template : string;
  tile_size : Z;
  lines : list Line;
  markers : list CircleMarker;
  zoom : Z;
  x_center : R;
  y_center : R
}.

(** Lines 118 and 120: longitude and latitude to tile-space coordinates. *)
Definition x_tile (zoom : Z) (lon : R) : R :=
  (lon + 180) / 360 * pow2 zoom.

Definition y_tile (zoom : Z) (lat : R) : result R :=
  let lat_rad := math_radians lat in
  let t := tan lat_rad in
  sec ← py_truediv 1 (cos lat_rad);
  l ← math_log (t + sec);
  Ret ((1 - l / PI) / 2 * pow2 zoom).

(** Lines 123 and 124: tile-space offset from the centre to a pixel. *)
Definition to_pixel (tile center : R) (tile_size extent : Z) : Z :=
  py_int ((tile - center) * IZR tile_size + IZR extent / 2).

(** [_geo_to_pixel(m, lon, lat)]. *)
Definition _geo_to_pixel (m : StaticMap) (lon lat : R) : result (Z * Z) :=
  let xt := x_tile (zoom m) lon in
  yt ← y_tile (zoom m) lat;
  let px := to_pixel xt (x_center m) (tile_size m) (width m) in
  let py := to_pixel yt (y_center m) (tile_size m) (height m) in
  Ret (px, py).

(** ** Basemaps *)

Definition BASEMAPS : gmap string string :=
  <["osm" := "https://a.tile.openstreetmap.org/{z}/{x}/{y}.png"]>
  (<["topo" := "https://tile.opentopomap.org/{z}/{x}/{y}.png"]>
  (<["cycle" := "https://a.tile-cyclosm.openstreetmap.fr/cyclosm/{z}/{x}/{y}.png"]>
  (<["humanitarian" := "https://a.tile.openstreetmap.fr/hot/{z}/{x}/{y}.png"]>
   ∅))).

(** [d[k]] and [d.get(k, v)] on a dict. *)
Definition dict_getitem (d : gmap string string) (k : string) : result string :=
  match d !! k with
  | Some v => Ret v
  | None => Raise KeyError
  end.

Definition dict_get (d : gmap string string) (k : string) (v : string) : string :=
  default v (d !! k).

(** Line 45: [BASEMAPS.get(basemap, BASEMAPS["osm"])]; the default is
    evaluated before the lookup. *)
Definition tile_url (basemap : string) : result string :=
  osm ← dict_getitem BASEMAPS "osm";
  Ret (dict_get BASEMAPS basemap osm).

(** ** Markers

    A marker is a dict read only through [get] at the keys ["lon"], ["lat"]
    and ["label"]; [None] stands for a key that is absent or bound to
    [None], which [get] does not tell apart. *)

Record Marker : Type := mkMarker {
  marker_lon : option R;
  marker_lat : option R;
  marker_label : option string
}.

(** ** Label placement *)

(** Lines 85 to 90: the text origin of a label whose anchor is [(px, py)]
    and whose text measures [tw] by [th], on an image of [width] by
    [height]. *)
Definition label_origin (px py tw th width height : Z) : Z * Z :=
  let label_x := (px + 10)%Z in
  let label_y := (py - th / 2)%Z in
  let label_x := Z.min label_x (width - tw - 4) in
  let label_y := Z.max 4 (Z.min label_y (height - th - 4)) in
  (label_x, label_y).

(** Line 93: the rectangle drawn beneath the text, as [x0, y0, x1, y1]. *)
Definition label_box (label_x label_y tw th : Z) : Z * Z * Z * Z :=
  ((label_x - 2)%Z, (label_y - 2)%Z, (label_x + tw + 2)%Z, (label_y + th + 2)%Z).

(** ** Effects

    The calls that reach the outside world, in program order: the tile
    rendering (with the map object as it is then), the drawing on the image,
    and the writing of the file. *)

Inductive event : Type :=
  | EvRender (m : StaticMap)
  | EvRectangle (box : Z * Z * Z * Z) (fill outline : string)
  | EvText (xy : Z * Z) (s : string) (fill : string)
  | EvMkdirParent (path : string)
  | EvSave (path : string) (format : string).

(** A computation with effects: the events it performed and how it ended. *)
Inductive io (A : Type) : Type :=
  | IO (trace : list event) (res : result A).

Arguments IO {A} trace res.

#[export] Instance io_ret : MRet io := fun _ a => IO [] (Ret a).

#[export] Instance io_bind : MBind io := fun _ _ k c =>
  match c with
  | IO t (Ret a) => let 'IO t' r := k a in IO (t ++ t') r
  | IO t (Raise e) => IO t (Raise e)
  end.

Definition emit (e : event) : io unit := IO [e] (Ret tt).

Definition lift {A : Type} (r : result A) : io A := IO [] r.

(** [for x in l: body(x)]. *)
Fixpoint for_each {A : Type} (l : list A) (body : A -> io unit) : io unit :=
  match l with
  | [] => mret tt
  | x :: l' => _ ← body x; for_each l' body
  end.

(** [for x in l: m = step(m, x)], for a loop that only updates a local. *)
Definition for_fold {A S : Type} (l : list A) (step : S -> A -> S) (s : S) : S :=
  fold_left step l s.

(** ** The render operation *)

Definition add_line (m : StaticMap) (l : Line) : StaticMap :=
  mkStaticMap (width m) (height m) (padding_x m) (padding_y m) (url_template m)
    (tile_size m) (lines m ++ [l]) (markers m) (zoom m) (x_center m) (y_center m).

Definition add_marker (m : StaticMap) (c : CircleMarker) : StaticMap :=
  mkStaticMap (width m) (height m) (padding_x m) (padding_y m) (url_template m)
    (tile_size m) (lines m) (markers m ++ [c]) (zoom m) (x_center m) (y_center m).

Definition set_view (m : StaticMap) (view : Z * R * R) : StaticMap :=
  let '(z, xc, yc) := view in
  mkStaticMap (width m) (height m) (padding_x m) (padding_y m) (url_template m)
    (tile_size m) (lines m) (markers m) z xc yc.

(** [(c[0], c[1])] for an entry of [coordinates]. *)
Definition coord_pair (c : list R) : result (R * R) :=
  match c with
  | c0 :: c1 :: _ => Ret (c0, c1)
  | _ => Raise IndexError
  end.

(** [if markers:] on an optional list. *)
Definition list_truthy {A : Type} (l : option (list A)) : bool :=
  match l with
  | Some (_ :: _) => true
  | _ => false
  end.

(** [not label] on a string. *)
Definition str_falsy (s : string) : bool :=
  match s with
  | EmptyString => true
  | String _ _ => false
  end.

(** Lines 55 to 58: the body of the first loop over the markers. *)
Definition add_route_marker (m : StaticMap) (marker : Marker) : StaticMap :=
  match marker_lon marker, marker_lat marker with
  | Some lon, Some lat => add_marker m (mkCircleMarker (lon, lat) "red" 8)
  | _, _ => m
  end.

Section Render.

(** The collaborators: the tile size a [StaticMap] has when its
    constructor is given none, the zoom and centre [render()] chooses for
    a map, the text metrics of the font in use, and [Path.resolve]. *)
Variable default_tile_size : Z.
Variable render_view : StaticMap -> Z * R * R.
Variable textbbox : string -> Z * Z * Z * Z.
Variable resolve : string -> string.

Definition StaticMap_new (width height padding_x padding_y : Z)
    (url_template : string) : StaticMap :=
  mkStaticMap width height padding_x padding_y url_template
    default_tile_size [] [] 0 0 0.

(** [m.render()]: fetches and composes the tiles and sets the view. *)
Definition render (m : StaticMap) : io StaticMap :=
  _ ← emit (EvRender m);
  mret (set_view m (render_view m)).

(** Lines 72 to 97: the body of the second loop over the markers. *)
Definition draw_label (m : StaticMap) (width height : Z) (marker : Marker)
    : io unit :=
  let lon := marker_lon marker in
  let lat := marker_lat marker in
  let label := default "" (marker_label marker) in
  match lon, lat with
  | Some lon, Some lat =>
      if str_falsy label then mret tt
      else
        '(px, py) ← lift (_geo_to_pixel m lon lat);
        let '(b0, b1, b2, b3) := textbbox label in
        let tw := (b2 - b0)%Z in
        let th := (b3 - b1)%Z in
        let '(label_x, label_y) := label_origin px py tw th width height in
        _ ← emit (EvRectangle (label_box label_x label_y tw th) "white" "gray");
        emit (EvText (label_x, label_y) label "black")
  | _, _ => mret tt
  end.

Definition render_route_map (coordinates : list (list R))
    (output_path : string) (markers : option (list Marker))
    (width height : Z) (line_color : string) (line_width : Z)
    (basemap : string) : io string :=
  if (length coordinates <? 2)%nat then
    mret "Error: coordinates must contain at least 2 [lon, lat] pairs."
  else
    tile_url ← lift (tile_url basemap);
    let m := StaticMap_new width height 20 20 tile_url in
    line_coords ← lift (mapM coord_pair coordinates);
    let m := add_line m (mkLine line_coords line_color line_width) in
    let m :=
      if list_truthy markers
      then for_fold (default [] markers) add_route_marker m
      else m in
    m ← render m;
    _ ← (if list_truthy markers
         then for_each (default [] markers) (draw_label m width height)
         else mret tt);
    let out := resolve output_path in
    _ ← emit (EvMkdirParent out);
    _ ← emit (EvSave out "PNG");
    mret out.

End Render.

(** ** The projection as the specification words it (section 4.1)

    Kept apart from [_geo_to_pixel] to compare the two. *)

Definition spec_tileX (longitude : R) (zoom : Z) : R :=
  (longitude + 180) / 360 * pow2 zoom.

Definition spec_tileY (latitude : R) (zoom : Z) : R :=
  let latRad := latitude * PI / 180 in
  (1 - ln (tan latRad + 1 / cos latRad) / PI) / 2 * pow2 zoom.

(** The pixel coordinate before it is made an integer. *)
Definition spec_pixel (tile center : R) (tileSize extent : Z) : R :=
  (tile - center) * IZR tileSize + IZR extent / 2.

(** [z] is an integer nearest to [x]. *)
Definition nearest_integer (x : R) (z : Z) : Prop :=
  Rabs (x - IZR z) <= 1 / 2.

(** [z] is [x] with its fractional part dropped. *)
Definition truncates (x : R) (z : Z) : Prop :=
  (0 <= x -> IZR z <= x < IZR z + 1) /\
  (x <= 0 -> IZR z - 1 < x <= IZR z).


(** A rectangle [x0, y0, x1, y1] within an image of [width] by [height]. *)
Definition box_within (box : Z * Z * Z * Z) (width height : Z) : Prop :=
  let '(x0, y0, x1, y1) := box in
  (0 <= x0 /\ x1 <= width /\ 0 <= y0 /\ y1 <= height)%Z.

(** ** Example inputs *)

(** The whole world on one tile: zoom 0 centred on longitude 0, latitude 0,
    at the default image size. *)
Definition world_view : StaticMap :=
  mkStaticMap 800 600 20 20 "https://a.tile.openstreetmap.org/{z}/{x}/{y}.png"
    256 [] [] 0 (1 / 2) (1 / 2).

Definition example_render_view (m : StaticMap) : Z * R * R :=
  (0%Z, 1 / 2, 1 / 2).

Definition example_textbbox (s : string) : Z * Z * Z * Z :=
  (0, 0, 7 * Z.of_nat (String.length s), 12)%Z.

Definition example_resolve (path : string) : string := path.

Definition example_route : list (list R) :=
  [[-171 / 10; 281 / 10]; [-172 / 10; 282 / 10]; [-173 / 10; 2815 / 100]].

(** ** Reading the markers and the trace *)

(** The glyph the first loop adds for a marker, if any (lines 55 to 58). *)
Definition marker_glyph (marker : Marker) : option CircleMarker :=
  match marker_lon marker, marker_lat marker with
  | Some lon, Some lat => Some (mkCircleMarker (lon, lat) "red" 8)
  | _, _ => None
  end.

(** The text the second loop draws for a marker, if any (lines 72 to 76). *)
Definition marker_text (marker : Marker) : option string :=
  match marker_lon marker, marker_lat marker with
  | Some _, Some _ =>
      let label := default "" (marker_label marker) in
      if str_falsy label then None else Some label
  | _, _ => None
  end.

(** The strings and the rectangles drawn in a trace, in order. *)
Definition drawn_texts (t : list event) : list string :=
  omap (fun e => match e with EvText _ s _ => Some s | _ => None end) t.

Definition drawn_boxes (t : list event) : list (Z * Z * Z * Z) :=
  omap (fun e => match e with EvRectangle b _ _ => Some b | _ => None end) t.

(** An event of the drawing collaborator. *)
Definition is_drawing (e : event) : Prop :=
  match e with
  | EvRectangle _ _ _ | EvText _ _ _ => True
  | _ => False
  end.

(** [(c[0], c[1])] for an entry that has both. *)
Definition first_two (c : list R) : R * R := (nth 0 c 0, nth 1 c 0).

(** ** Binary64 arithmetic and collaborators that can fail

    The definitions so far take every float operation as exact and every
    collaborator call as returning.  The ones below take both as they are.
    A double is the real number it stands for; each float operation gives
    the rounding [fl_rnd] of its exact result; [math.tan], [math.cos] and
    [math.log] are the platform's functions on doubles; and a call to a
    collaborator (the tile renderer, the drawing context and its font, the
    file system) returns or raises.  Infinities and NaN are outside the
    model. *)

Record float_ops : Type := mkFloatOps {
  fl_rnd : R -> R;
  fl_tan : R -> R;
  fl_cos : R -> R;
  fl_log : R -> R
}.

(** Exact arithmetic, as an instance. *)
Definition exact_ops : float_ops := mkFloatOps (fun x => x) tan cos ln.

Section Binary64.

Variable F : float_ops.

(** [math.pi], and [math.radians(x)], which is [x * (pi / 180.0)] with the
    constant computed once. *)
Definition math_pi_b64 : R := fl_rnd F PI.

Definition math_radians_b64 (deg : R) : R :=
  fl_rnd F (deg * fl_rnd F (math_pi_b64 / 180)).

Definition py_truediv_b64 (a b : R) : result R :=
  if Req_dec_T b 0 then Raise ZeroDivisionError else Ret (fl_rnd F (a / b)).

Definition math_log_b64 (x : R) : result R :=
  if Rlt_dec 0 x then Ret (fl_log F x) else Raise ValueError.

(** An integer where a float is expected: [tile_size], and [2**zoom], which
    is an integer for a zoom that is not negative and a float otherwise. *)
Definition float_of_int (z : Z) : R := fl_rnd F (IZR z).

Definition pow2_b64 (zoom : Z) : R := fl_rnd F (pow2 zoom).

(** Line 118. *)
Definition x_tile_b64 (zoom : Z) (lon : R) : R :=
  fl_rnd F (fl_rnd F (fl_rnd F (lon + 180) / 360) * pow2_b64 zoom).

(** Lines 119 and 120. *)
Definition y_tile_b64 (zoom : Z) (lat : R) : result R :=
  let lat_rad := math_radians_b64 lat in
  let t := fl_tan F lat_rad in
  sec ← py_truediv_b64 1 (fl_cos F lat_rad);
  l ← math_log_b64 (fl_rnd F (t + sec));
  Ret (fl_rnd F
         (fl_rnd F (fl_rnd F (1 - fl_rnd F (l / math_pi_b64)) / 2)
          * pow2_b64 zoom)).

(** Lines 123 and 124; [extent / 2] divides two integers into a float. *)
Definition to_pixel_b64 (tile center : R) (tile_size extent : Z) : Z :=
  py_int (fl_rnd F (fl_rnd F (fl_rnd F (tile - center) * float_of_int tile_size)
                    + fl_rnd F (IZR extent / 2))).

(** [_geo_to_pixel(m, lon, lat)] in binary64. *)
Definition _geo_to_pixel_b64 (m : StaticMap) (lon lat : R) : result (Z * Z) :=
  let xt := x_tile_b64 (zoom m) lon in
  yt ← y_tile_b64 (zoom m) lat;
  let px := to_pixel_b64 xt (x_center m) (tile_size m) (width m) in
  let py := to_pixel_b64 yt (y_center m) (tile_size m) (height m) in
  Ret (px, py).

(** The projection as the specification words it (section 4.1), with double
    precision throughout: the tile coordinates and the pixel before the
    integer step. *)
Definition spec_tileX_b64 (longitude : R) (zoom : Z) : R :=
  fl_rnd F (fl_rnd F (fl_rnd F (longitude + 180) / 360) * pow2_b64 zoom).

Definition spec_tileY_b64 (latitude : R) (zoom : Z) : R :=
  let latRad := math_radians_b64 latitude in
  let arg := fl_rnd F (fl_tan F latRad + fl_rnd F (1 / fl_cos F latRad)) in
  fl_rnd F
    (fl_rnd F (fl_rnd F (1 - fl_rnd F (fl_log F arg / math_pi_b64)) / 2)
     * pow2_b64 zoom).

Definition spec_pixel_b64 (tile center : R) (tileSize extent : Z) : R :=
  fl_rnd F (fl_rnd F (fl_rnd F (tile - center) * float_of_int tileSize)
            + fl_rnd F (IZR extent / 2)).

(** Rounding to nearest keeps the order. *)
Definition rnd_monotone : Prop :=
  forall x y : R, x <= y -> fl_rnd F x <= fl_rnd F y.

(** The doubles met when longitude 0 and latitude 0 are projected at a zoom
    are exact, and the platform has tan 0 = 0, cos 0 = 1 and log 1 = 0. *)
Definition exact_at_equator (zoom : Z) : Prop :=
  fl_rnd F (1 / 2) = 1 / 2 /\ fl_rnd F 1 = 1 /\ fl_rnd F 180 = 180 /\
  fl_rnd F (pow2 zoom) = pow2 zoom /\
  fl_tan F 0 = 0 /\ fl_cos F 0 = 1 /\ fl_log F 1 = 0.

End Binary64.

(** The collaborators, with calls that can raise: the tile size of a new
    [StaticMap], [render()] with the view it sets, [ImageDraw.Draw(image)],
    [ImageFont.truetype] on the DejaVu file, [ImageFont.load_default()],
    [draw.textbbox] at the origin, [draw.rectangle], [draw.text],
    [Path.resolve], [mkdir(parents=True, exist_ok=True)] on the parent of a
    path, and [image.save(path, format)]. *)
Record collaborators : Type := mkCollaborators {
  ext_tile_size : Z;
  ext_render : StaticMap -> result (Z * R * R);
  ext_Draw : result unit;
  ext_truetype : result unit;
  ext_load_default : result unit;
  ext_textbbox : string -> result (Z * Z * Z * Z);
  ext_rectangle : Z * Z * Z * Z -> result unit;
  ext_text : Z * Z -> string -> result unit;
  ext_resolve : string -> result string;
  ext_mkdir : string -> result unit;
  ext_save : string -> string -> result unit
}.

(** Collaborators that always return. *)
Definition returning (default_tile_size : Z)
    (render_view : StaticMap -> Z * R * R)
    (textbbox : string -> Z * Z * Z * Z) (resolve : string -> string)
    : collaborators :=
  mkCollaborators default_tile_size (fun m => Ret (render_view m))
    (Ret tt) (Ret tt) (Ret tt) (fun s => Ret (textbbox s))
    (fun _ => Ret tt) (fun _ _ => Ret tt) (fun p => Ret (resolve p))
    (fun _ => Ret tt) (fun _ _ => Ret tt).

(** A call to a collaborator that leaves a trace: it is made, and returns or
    raises. *)
Definition call {A : Type} (e : event) (r : result A) : io A := IO [e] r.

Section Calls.

Variable F : float_ops.
Variable E : collaborators.

Definition render_b64 (m : StaticMap) : io StaticMap :=
  view ← call (EvRender m) (ext_render E m);
  mret (set_view m view).

(** Lines 66 to 69: [OSError] (of which [IOError] is another name) is
    caught, any other exception is not. *)
Definition load_font : result unit :=
  match ext_truetype E with
  | Ret _ => Ret tt
  | Raise OSError => ext_load_default E
  | Raise e => Raise e
  end.

(** Lines 72 to 97. *)
Definition draw_label_b64 (m : StaticMap) (width height : Z)
    (marker : Marker) : io unit :=
  let lon := marker_lon marker in
  let lat := marker_lat marker in
  let label := default "" (marker_label marker) in
  match lon, lat with
  | Some lon, Some lat =>
      if str_falsy label then mret tt
      else
        '(px, py) ← lift (_geo_to_pixel_b64 F m lon lat);
        '(b0, b1, b2, b3) ← lift (ext_textbbox E label);
        let tw := (b2 - b0)%Z in
        let th := (b3 - b1)%Z in
        let '(label_x, label_y) := label_origin px py tw th width height in
        let box := label_box label_x label_y tw th in
        _ ← call (EvRectangle box "white" "gray") (ext_rectangle E box);
        call (EvText (label_x, label_y) label "black")
          (ext_text E (label_x, label_y) label)
  | _, _ => mret tt
  end.

(** [render_route_map], lines 42 to 104. *)
Definition render_route_map_b64 (coordinates : list (list R))
    (output_path : string) (markers : option (list Marker))
    (width height : Z) (line_color : string) (line_width : Z)
    (basemap : string) : io string :=
  if (length coordinates <? 2)%nat then
    mret "Error: coordinates must contain at least 2 [lon, lat] pairs."
  else
    tile_url ← lift (tile_url basemap);
    let m := StaticMap_new (ext_tile_size E) width height 20 20 tile_url in
    line_coords ← lift (mapM coord_pair coordinates);
    let m := add_line m (mkLine line_coords line_color line_width) in
    let m :=
      if list_truthy markers
      then for_fold (default [] markers) add_route_marker m
      else m in
    m ← render_b64 m;
    _ ← (if list_truthy markers
         then
           _ ← lift (ext_Draw E);
           _ ← lift load_font;
           for_each (default [] markers) (draw_label_b64 m width height)
         else mret tt);
    out ← lift (ext_resolve E output_path);
    _ ← call (EvMkdirParent out) (ext_mkdir E out);
    _ ← call (EvSave out "PNG") (ext_save E out "PNG");
    mret out.

(** The map that [render()] is called on, for a route whose entries all
    have two numbers. *)
Definition map_to_render (coordinates : list (list R))
    (markers : option (list Marker)) (width height : Z)
    (line_color : string) (line_width : Z) (basemap : string) : StaticMap :=
  for_fold (default [] markers) add_route_marker
    (add_line
       (StaticMap_new (ext_tile_size E) width height 20 20
          (dict_get BASEMAPS basemap
             "https://a.tile.openstreetmap.org/{z}/{x}/{y}.png"))
       (mkLine (map first_two coordinates) line_color line_width)).

(** A marker whose label, if it gets one, can be drawn on the view [m]:
    the projection returns a pixel for it and the three calls to the
    drawing collaborator return. *)
Definition label_drawable (m : StaticMap) (width height : Z)
    (marker : Marker) : Prop :=
  forall (s : string) (lon lat : R),
    marker_text marker = Some s ->
    marker_lon marker = Some lon -> marker_lat marker = Some lat ->
    exists (px py b0 b1 b2 b3 : Z),
      _geo_to_pixel_b64 F m lon lat = Ret (px, py) /\
      ext_textbbox E s = Ret (b0, b1, b2, b3) /\
      let o := label_origin px py (b2 - b0) (b3 - b1) width height in
      ext_rectangle E (label_box (fst o) (snd o) (b2 - b0) (b3 - b1)) = Ret tt /\
      ext_text E o s = Ret tt.

(** The drawing context and a font are there when there are markers. *)
Definition drawing_ready (markers : option (list Marker)) : Prop :=
  list_truthy markers = true -> ext_Draw E = Ret tt /\ load_font = Ret tt.

End Calls.

(** Collaborators for the examples: the DejaVu file is missing, everything
    else returns. *)
Definition example_collaborators : collaborators :=
  mkCollaborators 256 (fun m => Ret (example_render_view m))
    (Ret tt) (Raise OSError) (Ret tt) (fun s => Ret (example_textbbox s))
    (fun _ => Ret tt) (fun _ _ => Ret tt) (fun p => Ret (example_resolve p))
    (fun _ => Ret tt) (fun _ _ => Ret tt).

(** ** The mock renderer of the test suite

    [_mock_render(self, zoom=None)] of [tests/test_server.py], which stands
    in for [StaticMap.render].  Its collaborators are
    [self.determine_extent], called on the map once its zoom is set, and
    [Image.new] for the blank image it returns; what it leaves behind is
    the map with its view.  [n = 2**self.zoom] is an integer for a zoom
    that is not negative, and [n / 2] then divides two integers. *)
Definition zoom_or_10 (zoom : option Z) : Z :=
  match zoom with
  | Some z => if (z =? 0)%Z then 10%Z else z
  | None => 10%Z
  end.

Definition _mock_render (F : float_ops)
    (determine_extent : StaticMap -> Z -> result (option (R * R * R * R)))
    (image_new : Z -> Z -> result unit)
    (self : StaticMap) (zoom : option Z) : result StaticMap :=
  let z := zoom_or_10 zoom in
  let self := set_view self (z, x_center self, y_center self) in
  let n := pow2_b64 F z in
  extent ← determine_extent self z;
  self ←
    match extent with
    | Some (min_lon, min_lat, max_lon, max_lat) =>
        let cx := fl_rnd F (fl_rnd F (min_lon + max_lon) / 2) in
        let cy := fl_rnd F (fl_rnd F (min_lat + max_lat) / 2) in
        let xc := fl_rnd F (fl_rnd F (fl_rnd F (cx + 180) / 360) * n) in
        let lat_rad := math_radians_b64 F cy in
        let t := fl_tan F lat_rad in
        sec ← py_truediv_b64 F 1 (fl_cos F lat_rad);
        l ← math_log_b64 F (fl_rnd F (t + sec));
        let yc :=
          fl_rnd F
            (fl_rnd F (fl_rnd F (1 - fl_rnd F (l / math_pi_b64 F)) / 2) * n) in
        Ret (set_view self (z, xc, yc))
    | None =>
        let half :=
          if (0 <=? z)%Z then fl_rnd F (pow2 z / 2) else fl_rnd F (n / 2) in
        Ret (set_view self (z, half, half))
    end;
  _ ← image_new (width self) (height self);
  Ret self.

(** An extent for the examples: the bounding box of a short route. *)
Definition example_extent (m : StaticMap) (z : Z)
    : result (option (R * R * R * R)) :=
  Ret (Some (-173 / 10, 281 / 10, -171 / 10, 282 / 10)).

(** ** Truncation *)

Lemma py_int_nonneg (x : R) (z : Z) :
  IZR z <= x < IZR z + 1 -> (0 <= z)%Z -> py_int x = z.
Proof.
  intros Hx Hz. unfold py_int.
  apply IZR_le in Hz.
  destruct (Rle_dec 0 x) as [_ | Hn]; [now apply Zfloor_eq | lra].
Qed.

Lemma py_int_IZR (z : Z) : py_int (IZR z) = z.
Proof.
  unfold py_int. destruct (Rle_dec 0 (IZR z)).
  - apply ZfloorZ.
  - apply Zceil_eq. lra.
Qed.

Lemma py_int_le (x y : R) : x <= y -> (py_int x <= py_int y)%Z.
Proof.
  intros Hxy. unfold py_int.
  destruct (Rle_dec 0 x) as [Hx | Hx], (Rle_dec 0 y) as [Hy | Hy].
  - now apply Zfloor_le.
  - lra.
  - apply le_IZR.
    pose proof (Zceil_bound x). pose proof (Zfloor_bound y).
    assert (Hc : (Zceil x <= 0)%Z).
    { apply Z.lt_succ_r, lt_IZR. rewrite succ_IZR. lra. }
    assert (Hf : (0 <= Zfloor y)%Z) by now apply Zfloor_lub.
    apply IZR_le. lia.
  - now apply Zceil_le.
Qed.

Lemma py_int_truncates (x : R) : truncates x (py_int x).
Proof.
  unfold truncates, py_int.
  destruct (Rle_dec 0 x) as [Hx | Hx].
  - split; intros H.
    + apply Zfloor_bound.
    + assert (x = 0) as -> by lra.
      change 0 with (IZR 0). rewrite ZfloorZ. simpl. lra.
  - split; intros H; [lra | apply Zceil_bound].
Qed.


(** ** The projection inside the Mercator domain *)

Lemma pow2_pos (z : Z) : 0 < pow2 z.
Proof. unfold pow2. apply powerRZ_lt. lra. Qed.

Lemma radians_range (lat : R) :
  -90 < lat < 90 -> - (PI / 2) < math_radians lat < PI / 2.
Proof.
  intros [Hl Hu]. unfold math_radians.
  pose proof PI_RGT_0. split; nra.
Qed.

Lemma sec_arg_pos (x : R) : - (PI / 2) < x < PI / 2 -> 0 < cos x.
Proof. intros [Hl Hu]. now apply cos_gt_0. Qed.

Lemma mercator_arg_pos (x : R) :
  - (PI / 2) < x < PI / 2 -> 0 < tan x + 1 / cos x.
Proof.
  intros Hx. pose proof (sec_arg_pos x Hx) as Hc.
  assert (Hs : -1 < sin x).
  { destruct (SIN_bound x) as [Hlo _].
    destruct (Rle_lt_or_eq_dec _ _ Hlo) as [Hlt | Heq]; [exact Hlt |].
    pose proof (sin2_cos2 x) as H2. rewrite <- Heq in H2.
    unfold Rsqr in H2. nra. }
  unfold tan.
  replace (sin x / cos x + 1 / cos x) with ((sin x + 1) / cos x)
    by (field; lra).
  apply Rdiv_lt_0_compat; lra.
Qed.

Lemma y_tile_spec (z : Z) (lat : R) :
  -90 < lat < 90 -> y_tile z lat = Ret (spec_tileY lat z).
Proof.
  intros Hlat. pose proof (radians_range lat Hlat) as Hr.
  pose proof (sec_arg_pos _ Hr) as Hc.
  pose proof (mercator_arg_pos _ Hr) as Ha.
  unfold y_tile, py_truediv.
  destruct (Req_dec_T (cos (math_radians lat)) 0) as [H0 | _]; [lra |].
  cbn. unfold math_log.
  destruct (Rlt_dec 0 (tan (math_radians lat) + 1 / cos (math_radians lat)))
    as [_ | Hn]; [| contradiction].
  cbn. unfold spec_tileY, math_radians.
  replace (lat * PI / 180) with (lat * (PI / 180)) by lra.
  reflexivity.
Qed.

Lemma geo_to_pixel_spec (m : StaticMap) (lon lat : R) :
  -90 < lat < 90 ->
  _geo_to_pixel m lon lat =
    Ret (py_int (spec_pixel (spec_tileX lon (zoom m)) (x_center m)
                   (tile_size m) (width m)),
         py_int (spec_pixel (spec_tileY lat (zoom m)) (y_center m)
                   (tile_size m) (height m))).
Proof.
  intros Hlat. unfold _geo_to_pixel.
  rewrite (y_tile_spec _ _ Hlat). reflexivity.
Qed.

(** On the equator of [world_view] the latitude projects to the middle row
    and only the longitude matters. *)
Lemma spec_tileY_equator : spec_tileY 0 0 = 1 / 2.
Proof.
  unfold spec_tileY, pow2. cbn.
  replace (0 * PI / 180) with 0 by lra.
  rewrite tan_0, cos_0.
  replace (0 + 1 / 1) with 1 by lra.
  rewrite ln_1. pose proof PI_RGT_0. field. lra.
Qed.

Lemma world_view_equator (lon : R) :
  _geo_to_pixel world_view lon 0 =
    Ret (py_int ((lon + 180) / 360 * 256 - 128 + 400), 300%Z).
Proof.
  rewrite geo_to_pixel_spec by lra.
  unfold world_view, spec_pixel, spec_tileX. cbn [zoom x_center y_center tile_size width height].
  rewrite spec_tileY_equator. unfold pow2. cbn [powerRZ].
  f_equal. f_equal.
  - f_equal. lra.
  - replace ((1 / 2 - 1 / 2) * 256 + 600 / 2) with (IZR 300) by lra.
    apply py_int_IZR.
Qed.

(** With exact arithmetic the binary64 projection is the exact one. *)
Lemma geo_to_pixel_exact (m : StaticMap) (lon lat : R) :
  _geo_to_pixel_b64 exact_ops m lon lat = _geo_to_pixel m lon lat.
Proof. reflexivity. Qed.

Lemma spec_b64_exact (lon lat tile center : R) (z ts ext : Z) :
  spec_tileX_b64 exact_ops lon z = spec_tileX lon z /\
  spec_tileY_b64 exact_ops lat z = spec_tileY lat z /\
  spec_pixel_b64 exact_ops tile center ts ext = spec_pixel tile center ts ext.
Proof.
  unfold spec_tileX_b64, spec_tileY_b64, spec_pixel_b64, spec_tileX,
    spec_tileY, spec_pixel, math_radians_b64, math_pi_b64, pow2_b64,
    float_of_int.
  cbn. repeat split.
  replace (lat * (PI / 180)) with (lat * PI / 180) by lra. reflexivity.
Qed.

(** What a returning call of the binary64 projection computed. *)
Lemma geo_to_pixel_b64_returns (F : float_ops) (m : StaticMap) (lon lat : R)
    (px py : Z) :
  _geo_to_pixel_b64 F m lon lat = Ret (px, py) ->
  fl_cos F (math_radians_b64 F lat) <> 0 /\
  0 < fl_rnd F (fl_tan F (math_radians_b64 F lat)
                + fl_rnd F (1 / fl_cos F (math_radians_b64 F lat))) /\
  px = py_int (spec_pixel_b64 F (spec_tileX_b64 F lon (zoom m)) (x_center m)
                 (tile_size m) (width m)) /\
  py = py_int (spec_pixel_b64 F (spec_tileY_b64 F lat (zoom m)) (y_center m)
                 (tile_size m) (height m)).
Proof.
  unfold _geo_to_pixel_b64, y_tile_b64, py_truediv_b64, math_log_b64.
  destruct (Req_dec_T (fl_cos F (math_radians_b64 F lat)) 0) as [H0 | Hc];
    [discriminate |].
  cbn.
  destruct (Rlt_dec 0 _) as [Hpos | Hneg]; [| discriminate].
  cbn. intros H. injection H as <- <-.
  repeat split; assumption.
Qed.

(** C1 (as amended).  With every operation in double precision, whenever
    the projection returns a pixel for a longitude, a latitude and a view,
    the pixel is the one obtained from
    tileX = (longitude + 180)/360 * 2^zoom and
    tileY = (1 - ln(tan(latRad) + 1/cos(latRad))/pi)/2 * 2^zoom by
    (tile - centerTile) * tileSize + imageSize/2, made an integer only at
    that last step, and made so by truncation toward zero ([int]), not by
    rounding to the nearest integer; and it returns only where the cosine
    of the latitude is not zero and tan + 1/cos is positive, as doubles. *)
Theorem projection_truncates (F : float_ops) (m : StaticMap) (lon lat : R)
    (px py : Z) :
  _geo_to_pixel_b64 F m lon lat = Ret (px, py) ->
  truncates (spec_pixel_b64 F (spec_tileX_b64 F lon (zoom m)) (x_center m)
               (tile_size m) (width m)) px /\
  truncates (spec_pixel_b64 F (spec_tileY_b64 F lat (zoom m)) (y_center m)
               (tile_size m) (height m)) py /\
  fl_cos F (math_radians_b64 F lat) <> 0 /\
  0 < fl_rnd F (fl_tan F (math_radians_b64 F lat)
                + fl_rnd F (1 / fl_cos F (math_radians_b64 F lat))).
Proof.
  intros Hret.
  destruct (geo_to_pixel_b64_returns F m lon lat px py Hret)
    as (Hc & Hpos & -> & ->).
  repeat split; try apply py_int_truncates; assumption.
Qed.

Lemma projection_truncates_witness :
  _geo_to_pixel_b64 exact_ops world_view (135 / 128) 0 = Ret (400%Z, 300%Z) /\
  truncates (spec_pixel_b64 exact_ops
               (spec_tileX_b64 exact_ops (135 / 128) (zoom world_view))
               (x_center world_view) (tile_size world_view)
               (width world_view)) 400 /\
  truncates (spec_pixel_b64 exact_ops
               (spec_tileY_b64 exact_ops 0 (zoom world_view))
               (y_center world_view) (tile_size world_view)
               (height world_view)) 300.
Proof.
  assert (Hret : _geo_to_pixel_b64 exact_ops world_view (135 / 128) 0 =
                 Ret (400%Z, 300%Z)).
  { rewrite geo_to_pixel_exact, world_view_equator. do 2 f_equal.
    apply py_int_nonneg; [lra | lia]. }
  split; [exact Hret |].
  pose proof (projection_truncates exact_ops world_view (135 / 128) 0
                400 300 Hret) as (Hx & Hy & _).
  split; assumption.
Defined.

(** C1 as stated fails: at longitude 1.0546875 on the equator of
    [world_view] the pixel before the integer step is 400.75; the program
    returns x = 400, which is not a nearest integer. *)
Lemma projection_not_rounded :
  _geo_to_pixel world_view (135 / 128) 0 = Ret (400%Z, 300%Z) /\
  spec_pixel (spec_tileX (135 / 128) (zoom world_view)) (x_center world_view)
    (tile_size world_view) (width world_view) = 1603 / 4 /\
  ~ nearest_integer (1603 / 4) 400.
Proof.
  split; [| split].
  - rewrite world_view_equator. f_equal. f_equal.
    apply py_int_nonneg; [lra | lia].
  - unfold spec_pixel, spec_tileX, world_view, pow2. cbn. lra.
  - unfold nearest_integer. intros H.
    replace (1603 / 4 - 400) with (3 / 4) in H by lra.
    rewrite Rabs_pos_eq in H; lra.
Qed.

(** ** Longitude against pixel X *)

Lemma rnd_nonneg (F : float_ops) (x : R) :
  rnd_monotone F -> fl_rnd F 0 = 0 -> 0 <= x -> 0 <= fl_rnd F x.
Proof. intros Hm H0 Hx. rewrite <- H0. now apply Hm. Qed.

Lemma spec_tileX_b64_le (F : float_ops) (z : Z) (lon1 lon2 : R) :
  rnd_monotone F -> fl_rnd F 0 = 0 -> lon1 <= lon2 ->
  spec_tileX_b64 F lon1 z <= spec_tileX_b64 F lon2 z.
Proof.
  intros Hm H0 Hl. unfold spec_tileX_b64.
  assert (Hn : 0 <= pow2_b64 F z).
  { apply rnd_nonneg; [exact Hm | exact H0 |]. pose proof (pow2_pos z). lra. }
  apply Hm, Rmult_le_compat_r; [exact Hn |].
  apply Hm. unfold Rdiv. apply Rmult_le_compat_r; [lra |].
  apply Hm. lra.
Qed.

Lemma spec_pixel_b64_le (F : float_ops) (t1 t2 c : R) (ts ext : Z) :
  rnd_monotone F -> fl_rnd F 0 = 0 -> (0 <= ts)%Z -> t1 <= t2 ->
  spec_pixel_b64 F t1 c ts ext <= spec_pixel_b64 F t2 c ts ext.
Proof.
  intros Hm H0 Hts Ht. unfold spec_pixel_b64.
  assert (Hn : 0 <= float_of_int F ts).
  { apply rnd_nonneg; [exact Hm | exact H0 |]. now apply IZR_le. }
  apply Hm, Rplus_le_compat_r, Hm, Rmult_le_compat_r; [exact Hn |].
  apply Hm. lra.
Qed.

(** C7 (as amended).  With every operation in double precision and a
    rounding that keeps the order and leaves 0 as it is: for every fixed
    latitude and every fixed view whose tile size is not negative, if the
    projection returns a pixel at the longitudes lon1 < lon2, the pixel X
    does not decrease, project(lon1, lat).x <= project(lon2, lat).x, and the
    pixel Y is the same. *)
Theorem longitude_monotone (F : float_ops) (m : StaticMap) (lat lon1 lon2 : R)
    (px1 py1 px2 py2 : Z) :
  rnd_monotone F -> fl_rnd F 0 = 0 ->
  (0 <= tile_size m)%Z -> lon1 < lon2 ->
  _geo_to_pixel_b64 F m lon1 lat = Ret (px1, py1) ->
  _geo_to_pixel_b64 F m lon2 lat = Ret (px2, py2) ->
  (px1 <= px2)%Z /\ py1 = py2.
Proof.
  intros Hm H0 Hts Hlon H1 H2.
  destruct (geo_to_pixel_b64_returns F m lon1 lat px1 py1 H1)
    as (_ & _ & -> & ->).
  destruct (geo_to_pixel_b64_returns F m lon2 lat px2 py2 H2)
    as (_ & _ & -> & ->).
  split; [| reflexivity].
  apply py_int_le, spec_pixel_b64_le; try assumption.
  apply spec_tileX_b64_le; try assumption. lra.
Qed.

Lemma longitude_monotone_witness :
  rnd_monotone exact_ops /\ fl_rnd exact_ops 0 = 0 /\
  _geo_to_pixel_b64 exact_ops world_view 0 0 = Ret (400%Z, 300%Z) /\
  _geo_to_pixel_b64 exact_ops world_view 90 0 = Ret (464%Z, 300%Z) /\
  (400 <= 464)%Z /\ 300%Z = 300%Z.
Proof.
  assert (Hm : rnd_monotone exact_ops) by (intros x y Hxy; exact Hxy).
  assert (H0 : fl_rnd exact_ops 0 = 0) by reflexivity.
  assert (H1 : _geo_to_pixel_b64 exact_ops world_view 0 0 =
               Ret (400%Z, 300%Z)).
  { rewrite geo_to_pixel_exact, world_view_equator. do 2 f_equal.
    apply py_int_nonneg; [lra | lia]. }
  assert (H2 : _geo_to_pixel_b64 exact_ops world_view 90 0 =
               Ret (464%Z, 300%Z)).
  { rewrite geo_to_pixel_exact, world_view_equator. do 2 f_equal.
    apply py_int_nonneg; [lra | lia]. }
  split; [exact Hm |]. split; [exact H0 |].
  split; [exact H1 |]. split; [exact H2 |].
  apply (longitude_monotone exact_ops world_view 0 0 90 400 300 464 300);
    [exact Hm | exact H0 | simpl; lia | lra | exact H1 | exact H2].
Defined.

(** C7 as stated fails: on the equator of [world_view] the longitudes 0 and
    0.3515625 both land on pixel X = 400 (400 and 400.25 before the integer
    step). *)
Lemma longitude_not_strict :
  0 < 45 / 128 /\
  _geo_to_pixel world_view 0 0 = Ret (400%Z, 300%Z) /\
  _geo_to_pixel world_view (45 / 128) 0 = Ret (400%Z, 300%Z).
Proof.
  split; [lra |].
  split; rewrite world_view_equator; do 2 f_equal;
    (apply py_int_nonneg; [lra | lia]).
Qed.

(** ** The centre of the view *)



(** ** Label placement *)








(** C4 (as amended).  For every text size and every anchor, the rectangle
    drawn beneath a label never passes the right edge (x1 <= width - 2) nor
    the top edge (y0 >= 2); it lies entirely within
    [0, width] x [0, height] whenever the text leaves room for the margins
    (tw + 6 <= width and th + 6 <= height) and the anchor is at most 8
    pixels left of the image (px >= -8). *)
Theorem label_box_within (px py tw th w h : Z) :
  let o := label_origin px py tw th w h in
  let '(x0, y0, x1, y1) := label_box (fst o) (snd o) tw th in
  (x1 <= w - 2)%Z /\ (2 <= y0)%Z /\
  ((-8 <= px)%Z -> (tw + 6 <= w)%Z -> (th + 6 <= h)%Z ->
   box_within (x0, y0, x1, y1) w h).
Proof.
  cbn. unfold box_within. repeat split; lia.
Qed.

Lemma label_box_within_witness :
  let o := label_origin 400 300 7 12 800 600 in
  let '(x0, y0, x1, y1) := label_box (fst o) (snd o) 7 12 in
  (x1 <= 800 - 2)%Z /\ (2 <= y0)%Z /\ box_within (x0, y0, x1, y1) 800 600.
Proof.
  pose proof (label_box_within 400 300 7 12 800 600) as H.
  cbn in H |- *. destruct H as (H1 & H2 & H3).
  split; [exact H1 |]. split; [exact H2 |].
  apply H3; lia.
Defined.

(** C4 as stated fails: a label 798 pixels wide on an image 800 pixels wide
    does not exceed the image width, yet its rectangle starts at x0 = -4. *)
Lemma label_box_overhang :
  (798 <= 800)%Z /\
  let o := label_origin 100 300 798 12 800 600 in
  label_box (fst o) (snd o) 798 12 = ((-4)%Z, 292%Z, 798%Z, 308%Z) /\
  ~ box_within (label_box (fst o) (snd o) 798 12) 800 600.
Proof.
  split; [lia |]. cbn. split; [reflexivity |].
  unfold box_within. lia.
Qed.

(** What the amended C4 leaves open: an anchor 100 pixels left of the image
    puts the rectangle at x0 = -92, since X has no lower clamp. *)
Lemma label_box_left_of_image :
  let o := label_origin (-100) 300 50 12 800 600 in
  label_box (fst o) (snd o) 50 12 = ((-92)%Z, 292%Z, (-38)%Z, 308%Z).
Proof. reflexivity. Qed.

(** C10.  For every anchor and every text size, also for a text taller than
    the image, the label's Y origin is at least 4, because the lower clamp
    [max(4, ...)] is applied last; so the top edge of the rectangle is at
    least 2, and when [4, height - th - 4] is empty the origin is exactly
    4. *)
Theorem label_top_margin (px py tw th w h : Z) :
  let o := label_origin px py tw th w h in
  let '(_, y0, _, _) := label_box (fst o) (snd o) tw th in
  (4 <= snd o)%Z /\ (2 <= y0)%Z /\ ((h - th - 4 < 4)%Z -> snd o = 4%Z).
Proof.
  cbn. repeat split; lia.
Qed.

Lemma label_top_margin_witness :
  let o := label_origin 400 300 7 700 800 600 in
  let '(_, y0, _, _) := label_box (fst o) (snd o) 7 700 in
  (4 <= snd o)%Z /\ (2 <= y0)%Z /\ snd o = 4%Z.
Proof.
  pose proof (label_top_margin 400 300 7 700 800 600) as H.
  cbn in H |- *. destruct H as (H1 & H2 & H3).
  split; [exact H1 |]. split; [exact H2 |].
  apply H3; lia.
Defined.

(** ** The render operation *)

Lemma tile_url_get (basemap : string) :
  tile_url basemap =
    Ret (dict_get BASEMAPS basemap
           "https://a.tile.openstreetmap.org/{z}/{x}/{y}.png").
Proof. reflexivity. Qed.

(** The guards [if markers:] only skip loops that would do nothing. *)
Lemma fold_guard {S : Type} (ms : option (list Marker))
    (step : S -> Marker -> S) (s : S) :
  (if list_truthy ms then for_fold (default [] ms) step s else s) =
    for_fold (default [] ms) step s.
Proof. destruct ms as [[| mk ms] |]; reflexivity. Qed.

Lemma each_guard (ms : option (list Marker)) (body : Marker -> io unit) :
  (if list_truthy ms then for_each (default [] ms) body else mret tt) =
    for_each (default [] ms) body.
Proof. destruct ms as [[| mk ms] |]; reflexivity. Qed.

(** A marker on which the body does nothing can be left out of a loop. *)
Lemma for_fold_skip {S : Type} (step : S -> Marker -> S) (mk : Marker)
    (ms1 ms2 : list Marker) (s : S) :
  (forall s', step s' mk = s') ->
  for_fold (ms1 ++ mk :: ms2) step s = for_fold (ms1 ++ ms2) step s.
Proof.
  intros Hskip. unfold for_fold.
  rewrite !fold_left_app. cbn. now rewrite Hskip.
Qed.

Lemma for_each_skip (body : Marker -> io unit) (mk : Marker)
    (ms1 ms2 : list Marker) :
  body mk = IO [] (Ret tt) ->
  for_each (ms1 ++ mk :: ms2) body = for_each (ms1 ++ ms2) body.
Proof.
  intros Hskip. induction ms1 as [| a ms1 IH]; cbn.
  - rewrite Hskip. cbn. now destruct (for_each ms2 body).
  - now rewrite IH.
Qed.

Lemma add_route_marker_skip (m : StaticMap) (mk : Marker) :
  marker_lon mk = None \/ marker_lat mk = None -> add_route_marker m mk = m.
Proof.
  unfold add_route_marker. intros [H | H]; rewrite H; [| destruct (marker_lon mk)]; reflexivity.
Qed.

Lemma draw_label_skip (textbbox : string -> Z * Z * Z * Z) (m : StaticMap)
    (w h : Z) (mk : Marker) :
  marker_lon mk = None \/ marker_lat mk = None \/
  marker_label mk = None \/ marker_label mk = Some "" ->
  draw_label textbbox m w h mk = IO [] (Ret tt).
Proof.
  unfold draw_label. intros H.
  destruct (marker_lon mk) as [lon |]; [| reflexivity].
  destruct (marker_lat mk) as [lat |]; [| reflexivity].
  destruct H as [H | [H | [H | H]]]; try discriminate; rewrite H; reflexivity.
Qed.

(** The markers of the map only grow in the first loop. *)
Lemma add_route_marker_keeps (m : StaticMap) (mk : Marker) (c : CircleMarker) :
  In c (markers m) -> In c (markers (add_route_marker m mk)).
Proof.
  intros Hin. unfold add_route_marker.
  destruct (marker_lon mk), (marker_lat mk); cbn; try exact Hin.
  apply in_or_app. now left.
Qed.

Lemma for_fold_keeps (ms : list Marker) (m : StaticMap) (c : CircleMarker) :
  In c (markers m) -> In c (markers (for_fold ms add_route_marker m)).
Proof.
  revert m. induction ms as [| mk ms IH]; intros m Hin; cbn; [exact Hin |].
  apply IH, add_route_marker_keeps, Hin.
Qed.

Lemma for_fold_url (ms : list Marker) (m : StaticMap) :
  url_template (for_fold ms add_route_marker m) = url_template m.
Proof.
  revert m. induction ms as [| mk ms IH]; intros m; cbn; [reflexivity |].
  unfold for_fold in IH. rewrite IH. unfold add_route_marker.
  destruct (marker_lon mk), (marker_lat mk); reflexivity.
Qed.

(** A render whose route has two points or more, all of them pairs: the
    tiles are rendered for the map with its line and markers, the labels are
    drawn, and the file is written unless a label raised. *)
Lemma render_route_map_run (dts : Z) (rv : StaticMap -> Z * R * R)
    (tb : string -> Z * Z * Z * Z) (rs : string -> string)
    (coords : list (list R)) (lcs : list (R * R)) (out : string)
    (ms : option (list Marker)) (w h : Z) (lc : string) (lw : Z)
    (bm : string) :
  (2 <= length coords)%nat ->
  mapM coord_pair coords = Ret lcs ->
  let url := dict_get BASEMAPS bm
               "https://a.tile.openstreetmap.org/{z}/{x}/{y}.png" in
  let m0 := for_fold (default [] ms) add_route_marker
              (add_line (StaticMap_new dts w h 20 20 url) (mkLine lcs lc lw)) in
  let m1 := set_view m0 (rv m0) in
  render_route_map dts rv tb rs coords out ms w h lc lw bm =
    match for_each (default [] ms) (draw_label tb m1 w h) with
    | IO t (Ret _) =>
        IO (EvRender m0 :: t ++ [EvMkdirParent (rs out); EvSave (rs out) "PNG"])
           (Ret (rs out))
    | IO t (Raise e) => IO (EvRender m0 :: t) (Raise e)
    end.
Proof.
  intros Hlen Hmap url m0 m1. unfold render_route_map.
  destruct (Nat.ltb_spec (length coords) 2) as [Hlt | _]; [lia |].
  rewrite tile_url_get. cbn [lift mbind io_bind].
  rewrite Hmap. cbn [lift mbind io_bind app].
  rewrite fold_guard. fold url. fold m0.
  unfold render. cbn [emit mbind io_bind mret io_ret app].
  fold m1. rewrite each_guard.
  now destruct (for_each (default [] ms) (draw_label tb m1 w h))
    as [t [[] | e]].
Qed.

Lemma example_route_pairs :
  mapM coord_pair example_route =
    Ret [(-171 / 10, 281 / 10); (-172 / 10, 282 / 10); (-173 / 10, 2815 / 100)].
Proof. reflexivity. Qed.

(** C5.  For every coordinates list with fewer than 2 points, the render
    operation returns, as a value, an error string that starts with
    "Error: ", and it does so before any effect: no tile rendering, no
    drawing, no directory and no file. *)
Theorem too_few_coordinates (dts : Z) (rv : StaticMap -> Z * R * R)
    (tb : string -> Z * Z * Z * Z) (rs : string -> string)
    (coords : list (list R)) (out : string) (ms : option (list Marker))
    (w h : Z) (lc : string) (lw : Z) (bm : string) :
  (length coords < 2)%nat ->
  exists msg : string,
    render_route_map dts rv tb rs coords out ms w h lc lw bm = IO [] (Ret msg) /\
    String.prefix "Error: " msg = true.
Proof.
  intros Hlen. unfold render_route_map.
  destruct (Nat.ltb_spec (length coords) 2) as [_ | Hge]; [| lia].
  eexists. split; reflexivity.
Qed.

Lemma too_few_coordinates_witness :
  exists msg : string,
    render_route_map 256 example_render_view example_textbbox example_resolve
      [[-171 / 10; 281 / 10]] "/tmp/nope.png" None 800 600 "black" 3 "osm" =
      IO [] (Ret msg) /\
    String.prefix "Error: " msg = true.
Proof.
  apply (too_few_coordinates 256 example_render_view example_textbbox
           example_resolve [[-171 / 10; 281 / 10]] "/tmp/nope.png" None
           800 600 "black" 3 "osm").
  cbn. lia.
Defined.

(** C6.  In every markers list, a marker without its lon or without its lat
    is skipped silently: the whole render (events and result) is what it is
    with the marker left out of the list.  A marker with a position and an
    empty or absent label puts its point glyph on the map that is rendered
    and makes the label loop draw nothing: neither text nor rectangle. *)
Theorem marker_handling (dts : Z) (rv : StaticMap -> Z * R * R)
    (tb : string -> Z * Z * Z * Z) (rs : string -> string)
    (coords : list (list R)) (out : string) (ms1 ms2 : list Marker)
    (mk : Marker) (w h : Z) (lc : string) (lw : Z) (bm : string) :
  (marker_lon mk = None \/ marker_lat mk = None ->
   render_route_map dts rv tb rs coords out (Some (ms1 ++ mk :: ms2)%list)
     w h lc lw bm =
   render_route_map dts rv tb rs coords out (Some (ms1 ++ ms2)%list)
     w h lc lw bm) /\
  (forall lon lat : R,
     marker_lon mk = Some lon -> marker_lat mk = Some lat ->
     marker_label mk = None \/ marker_label mk = Some "" ->
     (forall m : StaticMap,
        In (mkCircleMarker (lon, lat) "red" 8)
           (markers (for_fold (ms1 ++ mk :: ms2) add_route_marker m))) /\
     (forall lcs : list (R * R),
        (2 <= length coords)%nat -> mapM coord_pair coords = Ret lcs ->
        exists (m : StaticMap) (rest : list event) (r : result string),
          render_route_map dts rv tb rs coords out
            (Some (ms1 ++ mk :: ms2)%list) w h lc lw bm =
            IO (EvRender m :: rest) r /\
          In (mkCircleMarker (lon, lat) "red" 8) (markers m)) /\
     (forall m : StaticMap,
        draw_label tb m w h mk = IO [] (Ret tt) /\
        for_each (ms1 ++ mk :: ms2) (draw_label tb m w h) =
          for_each (ms1 ++ ms2) (draw_label tb m w h))).
Proof.
  assert (Hglyph : forall (lon lat : R) (m : StaticMap),
            marker_lon mk = Some lon -> marker_lat mk = Some lat ->
            In (mkCircleMarker (lon, lat) "red" 8)
               (markers (for_fold (ms1 ++ mk :: ms2) add_route_marker m))).
  { intros lon lat m Hlon Hlat.
    unfold for_fold. rewrite fold_left_app. cbn [fold_left].
    apply (for_fold_keeps ms2).
    unfold add_route_marker. rewrite Hlon, Hlat. cbn.
    apply in_or_app. right. now left. }
  split.
  - intros Hpos. unfold render_route_map.
    destruct (length coords <? 2)%nat; [reflexivity |].
    rewrite tile_url_get. cbn [lift mbind io_bind].
    destruct (mapM coord_pair coords) as [lcs | e]; [| reflexivity].
    cbn [lift mbind io_bind app].
    rewrite !fold_guard. cbn [default].
    rewrite (for_fold_skip add_route_marker mk ms1 ms2)
      by (intros s'; now apply add_route_marker_skip).
    unfold render. cbn [emit mbind io_bind mret io_ret app].
    rewrite !each_guard. cbn [default].
    rewrite (for_each_skip _ mk ms1 ms2); [reflexivity |].
    apply draw_label_skip. tauto.
  - intros lon lat Hlon Hlat Hlab. split; [| split].
    + intros m. now apply Hglyph.
    + intros lcs Hlen Hmap.
      rewrite (render_route_map_run dts rv tb rs coords lcs out _ w h lc lw
                 bm Hlen Hmap).
      cbn [default].
      destruct (for_each _ _) as [t [[] | e]];
        eexists _, _, _; (split; [reflexivity |]); now apply Hglyph.
    + intros m.
      assert (Hskip : draw_label tb m w h mk = IO [] (Ret tt))
        by (apply draw_label_skip; tauto).
      split; [exact Hskip | now apply for_each_skip].
Qed.

Lemma marker_handling_witness :
  render_route_map 256 example_render_view example_textbbox example_resolve
    example_route "out.png"
    (Some ([] ++ mkMarker None (Some 0) (Some "A") :: [])%list) 800 600 "black" 3
    "osm" =
  render_route_map 256 example_render_view example_textbbox example_resolve
    example_route "out.png" (Some ([] ++ [])%list) 800 600 "black" 3 "osm" /\
  In (mkCircleMarker (0, 0) "red" 8)
     (markers (for_fold ([] ++ mkMarker (Some 0) (Some 0) None :: [])
                 add_route_marker world_view)) /\
  (exists (m : StaticMap) (rest : list event) (r : result string),
     render_route_map 256 example_render_view example_textbbox
       example_resolve example_route "out.png"
       (Some ([] ++ mkMarker (Some 0) (Some 0) None :: [])%list) 800 600
       "black" 3 "osm" = IO (EvRender m :: rest) r /\
     In (mkCircleMarker (0, 0) "red" 8) (markers m)) /\
  draw_label example_textbbox world_view 800 600
    (mkMarker (Some 0) (Some 0) None) = IO [] (Ret tt).
Proof.
  split; [| split; [| split]].
  - apply (marker_handling 256 example_render_view example_textbbox
             example_resolve example_route "out.png" [] []
             (mkMarker None (Some 0) (Some "A")) 800 600 "black" 3 "osm").
    left. reflexivity.
  - apply (marker_handling 256 example_render_view example_textbbox
             example_resolve example_route "out.png" [] []
             (mkMarker (Some 0) (Some 0) None) 800 600 "black" 3 "osm");
      auto.
  - apply (marker_handling 256 example_render_view example_textbbox
             example_resolve example_route "out.png" [] []
             (mkMarker (Some 0) (Some 0) None) 800 600 "black" 3 "osm")
      with (lcs := [(-171 / 10, 281 / 10); (-172 / 10, 282 / 10);
                    (-173 / 10, 2815 / 100)]);
      first [apply example_route_pairs | reflexivity | now left | (cbn; lia)].
  - apply (marker_handling 256 example_render_view example_textbbox
             example_resolve example_route "out.png" [] []
             (mkMarker (Some 0) (Some 0) None) 800 600 "black" 3 "osm"
             ) with (lon := 0) (lat := 0); auto.
Defined.

(** ** Basemaps *)

Lemma BASEMAPS_unknown (basemap : string) :
  basemap <> "osm" -> basemap <> "topo" -> basemap <> "cycle" ->
  basemap <> "humanitarian" -> BASEMAPS !! basemap = None.
Proof.
  intros H1 H2 H3 H4. unfold BASEMAPS.
  rewrite !lookup_insert_ne by congruence.
  apply lookup_empty.
Qed.

(** C9.  Each of the names osm, topo, cycle and humanitarian resolves to its
    own fixed tile-URL template; every other basemap value resolves to the
    osm template, without an error; and the template so resolved is the one
    of the map that the render operation has rendered. *)
Theorem basemap_selection :
  tile_url "osm" = Ret "https://a.tile.openstreetmap.org/{z}/{x}/{y}.png" /\
  tile_url "topo" = Ret "https://tile.opentopomap.org/{z}/{x}/{y}.png" /\
  tile_url "cycle" =
    Ret "https://a.tile-cyclosm.openstreetmap.fr/cyclosm/{z}/{x}/{y}.png" /\
  tile_url "humanitarian" =
    Ret "https://a.tile.openstreetmap.fr/hot/{z}/{x}/{y}.png" /\
  (forall basemap : string,
     basemap <> "osm" -> basemap <> "topo" -> basemap <> "cycle" ->
     basemap <> "humanitarian" ->
     tile_url basemap =
       Ret "https://a.tile.openstreetmap.org/{z}/{x}/{y}.png") /\
  (forall (dts : Z) (rv : StaticMap -> Z * R * R)
          (tb : string -> Z * Z * Z * Z) (rs : string -> string)
          (coords : list (list R)) (lcs : list (R * R)) (out : string)
          (ms : option (list Marker)) (w h : Z) (lc : string) (lw : Z)
          (basemap : string),
     (2 <= length coords)%nat ->
     mapM coord_pair coords = Ret lcs ->
     exists (url : string) (m : StaticMap) (rest : list event)
            (r : result string),
       tile_url basemap = Ret url /\
       render_route_map dts rv tb rs coords out ms w h lc lw basemap =
         IO (EvRender m :: rest) r /\
       url_template m = url).
Proof.
  repeat (split; [reflexivity |]). split.
  - intros basemap H1 H2 H3 H4. rewrite tile_url_get. unfold dict_get.
    now rewrite BASEMAPS_unknown.
  - intros dts rv tb rs coords lcs out ms w h lc lw basemap Hlen Hmap.
    rewrite (render_route_map_run dts rv tb rs coords lcs out ms w h lc lw
               basemap Hlen Hmap).
    rewrite tile_url_get.
    destruct (for_each _ _) as [t [[] | e]];
      eexists _, _, _, _; (split; [reflexivity |]); (split; [reflexivity |]);
      now rewrite for_fold_url.
Qed.

Lemma basemap_selection_witness :
  tile_url "satellite" =
    Ret "https://a.tile.openstreetmap.org/{z}/{x}/{y}.png" /\
  exists (url : string) (m : StaticMap) (rest : list event)
         (r : result string),
    tile_url "satellite" = Ret url /\
    render_route_map 256 example_render_view example_textbbox example_resolve
      example_route "out.png" None 800 600 "black" 3 "satellite" =
      IO (EvRender m :: rest) r /\
    url_template m = url.
Proof.
  destruct basemap_selection as (_ & _ & _ & _ & Hother & Hrender).
  split.
  - apply Hother; discriminate.
  - apply (Hrender 256%Z example_render_view example_textbbox example_resolve
             example_route
             [(-171 / 10, 281 / 10); (-172 / 10, 282 / 10);
              (-173 / 10, 2815 / 100)]
             "out.png" None 800%Z 600%Z "black" 3%Z "satellite").
    + cbn. lia.
    + apply example_route_pairs.
Defined.

(** ** The poles

    [_geo_to_pixel] compares the latitude with nothing; at a pole it fails
    only if its arithmetic does.  With exact numbers the cosine of the pole
    is zero and the division raises.  This is a fact of the embedding, not
    of the program at run time: the double nearest to pi/2 is below pi/2,
    its cosine is a small positive double, and what happens next is decided
    by how each operation rounds. *)
Lemma y_tile_pole_exact (z : Z) (lat : R) :
  lat = 90 \/ lat = -90 -> y_tile z lat = Raise ZeroDivisionError.
Proof.
  intros Hlat. unfold y_tile, py_truediv, math_radians.
  assert (Hc : cos (lat * (PI / 180)) = 0).
  { destruct Hlat as [-> | ->].
    - replace (90 * (PI / 180)) with (PI / 2) by lra. apply cos_PI2.
    - replace (-90 * (PI / 180)) with (- (PI / 2)) by lra.
      rewrite cos_neg. apply cos_PI2. }
  rewrite Hc. destruct (Req_dec_T 0 0) as [_ | Hn]; [reflexivity | lra].
Qed.

(** ** More on the projection *)

Lemma pow2_succ (z : Z) : pow2 (z + 1) = 2 * pow2 z.
Proof.
  unfold pow2. rewrite powerRZ_add by lra. rewrite powerRZ_1. lra.
Qed.

(** X3.  One zoom level more doubles the tile coordinates.  For every zoom,
    longitude and latitude, the tile-space X at zoom + 1 is twice the one at
    zoom, and the tile-space Y at zoom + 1 is twice the one at zoom, or
    raises as it does at zoom. *)
Theorem zoom_doubles (z : Z) (lon lat : R) :
  x_tile (z + 1) lon = 2 * x_tile z lon /\
  y_tile (z + 1) lat = (y ← y_tile z lat; Ret (2 * y)).
Proof.
  split.
  - unfold x_tile. rewrite pow2_succ. lra.
  - unfold y_tile.
    destruct (py_truediv 1 (cos (math_radians lat))) as [sec | e];
      [| reflexivity].
    cbn. destruct (math_log (tan (math_radians lat) + sec)) as [l | e];
      [| reflexivity].
    cbn. f_equal. rewrite pow2_succ. lra.
Qed.

(** X4.  Longitudes of the map stay on the tile grid.  For every zoom, a
    longitude between -180 and 180 has its tile-space X between 0 and
    2^zoom, the ends being the two edges of the world. *)
Theorem x_tile_range (z : Z) (lon : R) :
  -180 <= lon <= 180 ->
  0 <= x_tile z lon <= pow2 z /\
  x_tile z (-180) = 0 /\ x_tile z 180 = pow2 z.
Proof.
  intros Hlon. pose proof (pow2_pos z) as Hn. unfold x_tile.
  split; [split; nra |]. split; lra.
Qed.

Lemma x_tile_range_witness :
  0 <= x_tile 10 (-171 / 10) <= pow2 10 /\
  x_tile 10 (-180) = 0 /\ x_tile 10 180 = pow2 10.
Proof. apply (x_tile_range 10 (-171 / 10)). lra. Defined.

Lemma py_int_half (w : Z) : py_int (IZR w / 2) = Z.quot w 2.
Proof.
  pose proof (Z.quot_rem w 2 ltac:(lia)) as Hqr.
  destruct (Z_le_gt_dec 0 w) as [Hw | Hw].
  - pose proof (Z.rem_bound_pos w 2 Hw ltac:(lia)) as Hb.
    assert (Hq : (0 <= Z.quot w 2)%Z) by (apply Z.quot_pos; lia).
    apply py_int_nonneg; [| exact Hq].
    assert (H1 : (2 * Z.quot w 2 <= w)%Z) by lia.
    assert (H2 : (w < 2 * Z.quot w 2 + 2)%Z) by lia.
    apply IZR_le in H1. apply IZR_lt in H2.
    rewrite mult_IZR in H1. rewrite plus_IZR, mult_IZR in H2. lra.
  - pose proof (Z.rem_bound_pos_neg w 2) as Hb.
    assert (H1 : (w <= 2 * Z.quot w 2)%Z) by lia.
    assert (H2 : (2 * Z.quot w 2 - 2 < w)%Z) by lia.
    apply IZR_le in H1. apply IZR_lt in H2.
    rewrite mult_IZR in H1. rewrite minus_IZR, mult_IZR in H2.
    assert (Hwn : IZR w < 0) by (apply IZR_lt; lia).
    unfold py_int. destruct (Rle_dec 0 (IZR w / 2)) as [Hp | _]; [lra |].
    apply Zceil_eq. lra.
Qed.







Lemma cos_beyond_pole (x : R) :
  PI / 2 < x < 3 * (PI / 2) \/ - (3 * (PI / 2)) < x < - (PI / 2) ->
  cos x < 0.
Proof.
  intros [[Hl Hu] | [Hl Hu]].
  - now apply cos_lt_0.
  - rewrite <- cos_neg. apply cos_lt_0; lra.
Qed.

Lemma y_tile_beyond_pole (z : Z) (lat : R) :
  91 <= lat <= 269 \/ -269 <= lat <= -91 ->
  y_tile z lat = Raise ValueError.
Proof.
  intros Hlat. pose proof PI_RGT_0 as Hpi.
  assert (Hc : cos (math_radians lat) < 0).
  { apply cos_beyond_pole. unfold math_radians.
    destruct Hlat as [[Hl Hu] | [Hl Hu]]; [left | right]; split; nra. }
  unfold y_tile, py_truediv.
  destruct (Req_dec_T (cos (math_radians lat)) 0) as [H0 | _]; [lra |].
  cbn. unfold math_log.
  destruct (Rlt_dec 0 _) as [Hpos | _]; [| reflexivity].
  exfalso.
  destruct (SIN_bound (math_radians lat)) as [Hlo _].
  unfold tan in Hpos.
  replace (sin (math_radians lat) / cos (math_radians lat) +
           1 / cos (math_radians lat))
    with ((sin (math_radians lat) + 1) * / cos (math_radians lat)) in Hpos
    by (field; lra).
  pose proof (Rinv_lt_0_compat _ Hc) as Hinv.
  nra.
Qed.

(** X5.  Latitudes beyond a pole.  For a latitude from 91 to 269 degrees,
    or from -269 to -91, the projection raises ValueError (the logarithm of
    a number that is not positive) for every view and longitude, and returns
    no pixel.  The range stops one degree short of the poles: next to them
    the sign of tan + 1/cos, the argument of the logarithm, is decided by
    rounding. *)
Theorem beyond_pole_raises (m : StaticMap) (lon lat : R) :
  91 <= lat <= 269 \/ -269 <= lat <= -91 ->
  _geo_to_pixel m lon lat = Raise ValueError.
Proof.
  intros Hlat. unfold _geo_to_pixel.
  rewrite (y_tile_beyond_pole (zoom m) lat Hlat). reflexivity.
Qed.

Lemma beyond_pole_raises_witness :
  _geo_to_pixel world_view 0 100 = Raise ValueError.
Proof. apply (beyond_pole_raises world_view 0 100). left. lra. Defined.

(** ** More on the render operation *)

Lemma coord_pairs (coords : list (list R)) :
  Forall (fun c => (2 <= length c)%nat) coords ->
  mapM coord_pair coords = Ret (map first_two coords).
Proof.
  induction 1 as [| c coords Hc _ IH]; [reflexivity |].
  cbn. destruct c as [| c0 [| c1 c]]; cbn in Hc; try lia.
  cbn. rewrite IH. reflexivity.
Qed.

Lemma coord_pairs_bad (coords : list (list R)) :
  Exists (fun c => (length c < 2)%nat) coords ->
  mapM coord_pair coords = Raise IndexError.
Proof.
  induction 1 as [c coords Hc | c coords _ IH].
  - destruct c as [| c0 [| c1 c]]; cbn in Hc; try lia; reflexivity.
  - cbn. destruct (coord_pair c) as [p | e] eqn:Hp.
    + cbn. rewrite IH. reflexivity.
    + cbn. destruct c as [| c0 [| c1 c]]; cbn in Hp; congruence.
Qed.

Lemma add_route_marker_glyph (m : StaticMap) (mk : Marker) :
  add_route_marker m mk =
    match marker_glyph mk with
    | Some g => add_marker m g
    | None => m
    end.
Proof.
  unfold add_route_marker, marker_glyph.
  destruct (marker_lon mk), (marker_lat mk); reflexivity.
Qed.

Lemma for_fold_markers (ms : list Marker) (m : StaticMap) :
  let m' := for_fold ms add_route_marker m in
  markers m' = (markers m ++ omap marker_glyph ms)%list /\
  lines m' = lines m /\ width m' = width m /\ height m' = height m /\
  padding_x m' = padding_x m /\ padding_y m' = padding_y m /\
  tile_size m' = tile_size m /\ url_template m' = url_template m.
Proof.
  revert m. induction ms as [| mk ms IH]; intros m; cbn.
  - rewrite app_nil_r. tauto.
  - specialize (IH (add_route_marker m mk)). cbn in IH.
    unfold for_fold in IH.
    destruct IH as (H1 & H2 & H3 & H4 & H5 & H6 & H7 & H8).
    rewrite H1, H2, H3, H4, H5, H6, H7, H8.
    rewrite add_route_marker_glyph.
    destruct (marker_glyph mk) as [g |]; cbn; [| tauto].
    rewrite <- app_assoc. tauto.
Qed.

Lemma marker_text_position (mk : Marker) (s : string) :
  marker_text mk = Some s ->
  exists lon lat : R, marker_lon mk = Some lon /\ marker_lat mk = Some lat.
Proof.
  unfold marker_text.
  destruct (marker_lon mk) as [lon |], (marker_lat mk) as [lat |];
    try discriminate.
  eauto.
Qed.

(** X10.  The map that is rendered.  For a route of two entries or more, each
    with two numbers or more, the map handed to the tile renderer has the
    image size asked for, paddings of 20, the default tile size, one line
    (the first two numbers of every route entry, in order, with the colour
    and width asked for) and one red glyph of width 8 for each marker that
    has both lon and lat, in the order of the markers. *)
Theorem rendered_map (dts : Z) (rv : StaticMap -> Z * R * R)
    (tb : string -> Z * Z * Z * Z) (rs : string -> string)
    (coords : list (list R)) (out : string) (ms : option (list Marker))
    (w h : Z) (lc : string) (lw : Z) (bm : string) :
  (2 <= length coords)%nat ->
  Forall (fun c => (2 <= length c)%nat) coords ->
  exists (m0 : StaticMap) (rest : list event) (r : result string),
    render_route_map dts rv tb rs coords out ms w h lc lw bm =
      IO (EvRender m0 :: rest) r /\
    width m0 = w /\ height m0 = h /\
    padding_x m0 = 20%Z /\ padding_y m0 = 20%Z /\ tile_size m0 = dts /\
    lines m0 = [mkLine (map first_two coords) lc lw] /\
    markers m0 = omap marker_glyph (default [] ms).
Proof.
  intros Hlen Hpairs.
  rewrite (render_route_map_run dts rv tb rs coords _ out ms w h lc lw bm
             Hlen (coord_pairs coords Hpairs)).
  match goal with
  | |- context [EvRender (for_fold ?l add_route_marker ?m)] =>
      pose proof (for_fold_markers l m) as Hm
  end.
  cbn in Hm. destruct Hm as (H1 & H2 & H3 & H4 & H5 & H6 & H7 & _).
  destruct (for_each _ _) as [t [[] | e]];
    eexists _, _, _; (split; [reflexivity |]);
    rewrite H1, H2, H3, H4, H5, H6, H7; cbn; tauto.
Qed.

Lemma rendered_map_witness :
  exists (m0 : StaticMap) (rest : list event) (r : result string),
    render_route_map 256 example_render_view example_textbbox example_resolve
      example_route "out.png"
      (Some [mkMarker (Some 0) (Some 0) None; mkMarker None (Some 0) None])
      800 600 "black" 3 "osm" = IO (EvRender m0 :: rest) r /\
    width m0 = 800%Z /\ height m0 = 600%Z /\
    padding_x m0 = 20%Z /\ padding_y m0 = 20%Z /\ tile_size m0 = 256%Z /\
    lines m0 = [mkLine (map first_two example_route) "black" 3] /\
    markers m0 =
      omap marker_glyph
        (default []
           (Some [mkMarker (Some 0) (Some 0) None; mkMarker None (Some 0) None])).
Proof.
  apply (rendered_map 256 example_render_view example_textbbox
           example_resolve example_route "out.png"
           (Some [mkMarker (Some 0) (Some 0) None; mkMarker None (Some 0) None])
           800 600 "black" 3 "osm").
  - cbn. lia.
  - repeat constructor; cbn; lia.
Defined.

(** X11.  A route entry that is too short.  For a route of two entries or
    more, one of which has fewer than two numbers, the render operation
    raises IndexError, and does so before any effect: nothing is rendered,
    drawn or written, and no error string is returned. *)
Theorem short_entry_raises (dts : Z) (rv : StaticMap -> Z * R * R)
    (tb : string -> Z * Z * Z * Z) (rs : string -> string)
    (coords : list (list R)) (out : string) (ms : option (list Marker))
    (w h : Z) (lc : string) (lw : Z) (bm : string) :
  (2 <= length coords)%nat ->
  Exists (fun c => (length c < 2)%nat) coords ->
  render_route_map dts rv tb rs coords out ms w h lc lw bm =
    IO [] (Raise IndexError).
Proof.
  intros Hlen Hbad. unfold render_route_map.
  destruct (Nat.ltb_spec (length coords) 2) as [Hlt | _]; [lia |].
  rewrite tile_url_get. cbn [lift mbind io_bind].
  rewrite (coord_pairs_bad coords Hbad). reflexivity.
Qed.

Lemma short_entry_raises_witness :
  render_route_map 256 example_render_view example_textbbox example_resolve
    [[-171 / 10; 281 / 10]; [-172 / 10]] "out.png" None 800 600 "black" 3
    "osm" = IO [] (Raise IndexError).
Proof.
  apply (short_entry_raises 256 example_render_view example_textbbox
           example_resolve [[-171 / 10; 281 / 10]; [-172 / 10]] "out.png"
           None 800 600 "black" 3 "osm").
  - cbn. lia.
  - apply Exists_cons_tl, Exists_cons_hd. cbn. lia.
Defined.


(** ** The render operation with calls that can fail *)

Lemma bind_lift_ret {A B : Type} (a : A) (k : A -> io B) :
  (x ← lift (Ret a); k x) = k a.
Proof. cbn. now destruct (k a). Qed.

Lemma bind_call_ret {A B : Type} (ev : event) (a : A) (k : A -> io B) :
  (x ← call ev (Ret a); k x) = (let 'IO t r := k a in IO (ev :: t) r).
Proof. reflexivity. Qed.

Lemma bind_io_ret {A B : Type} (t : list event) (a : A) (k : A -> io B) :
  (x ← IO t (Ret a); k x) = (let 'IO t' r := k a in IO (t ++ t') r).
Proof. reflexivity. Qed.

Lemma draw_label_b64_none (F : float_ops) (E : collaborators) (m : StaticMap)
    (w h : Z) (mk : Marker) :
  marker_text mk = None -> draw_label_b64 F E m w h mk = IO [] (Ret tt).
Proof.
  unfold marker_text, draw_label_b64.
  destruct (marker_lon mk), (marker_lat mk); try reflexivity.
  destruct (str_falsy _); [reflexivity | discriminate].
Qed.

Lemma draw_label_b64_some (F : float_ops) (E : collaborators) (m : StaticMap)
    (w h : Z) (mk : Marker) (s : string) (lon lat : R) :
  marker_text mk = Some s ->
  marker_lon mk = Some lon -> marker_lat mk = Some lat ->
  draw_label_b64 F E m w h mk =
    ('(px, py) ← lift (_geo_to_pixel_b64 F m lon lat);
     '(b0, b1, b2, b3) ← lift (ext_textbbox E s);
     let tw := (b2 - b0)%Z in
     let th := (b3 - b1)%Z in
     let '(label_x, label_y) := label_origin px py tw th w h in
     let box := label_box label_x label_y tw th in
     _ ← call (EvRectangle box "white" "gray") (ext_rectangle E box);
     call (EvText (label_x, label_y) s "black") (ext_text E (label_x, label_y) s)).
Proof.
  unfold marker_text, draw_label_b64. intros Ht Hlon Hlat.
  rewrite Hlon, Hlat in *.
  destruct (str_falsy _); [discriminate |].
  injection Ht as <-. reflexivity.
Qed.

(** The events of one label whose calls all return. *)
Lemma draw_label_b64_drawable (F : float_ops) (E : collaborators)
    (m : StaticMap) (w h : Z) (mk : Marker) (s : string) :
  marker_text mk = Some s -> label_drawable F E m w h mk ->
  exists (b : Z * Z * Z * Z) (o : Z * Z),
    draw_label_b64 F E m w h mk =
      IO [EvRectangle b "white" "gray"; EvText o s "black"] (Ret tt).
Proof.
  intros Ht Hd.
  destruct (marker_text_position mk s Ht) as (lon & lat & Hlon & Hlat).
  rewrite (draw_label_b64_some F E m w h mk s lon lat Ht Hlon Hlat).
  destruct (Hd s lon lat Ht Hlon Hlat)
    as (px & py & b0 & b1 & b2 & b3 & Hp & Hb & Hr & Hx).
  rewrite Hp, bind_lift_ret, Hb, bind_lift_ret.
  cbv zeta in Hr, Hx |- *.
  destruct (label_origin px py (b2 - b0) (b3 - b1) w h) as [lx ly].
  cbn [fst snd] in Hr. rewrite Hr, Hx. cbn. eauto.
Qed.

(** The events of one label, whatever its calls do. *)
Lemma draw_label_b64_drawing (F : float_ops) (E : collaborators)
    (m : StaticMap) (w h : Z) (mk : Marker) :
  match draw_label_b64 F E m w h mk with
  | IO t _ => Forall is_drawing t
  end.
Proof.
  destruct (marker_text mk) as [s |] eqn:Ht.
  - destruct (marker_text_position mk s Ht) as (lon & lat & Hlon & Hlat).
    rewrite (draw_label_b64_some F E m w h mk s lon lat Ht Hlon Hlat).
    destruct (_geo_to_pixel_b64 F m lon lat) as [[px py] | e];
      [rewrite bind_lift_ret | constructor].
    destruct (ext_textbbox E s) as [[[[b0 b1] b2] b3] | e];
      [rewrite bind_lift_ret | constructor].
    cbv zeta.
    destruct (label_origin px py (b2 - b0) (b3 - b1) w h) as [lx ly].
    destruct (ext_rectangle E _) as [[] | e]; cbn; repeat constructor.
  - rewrite draw_label_b64_none by exact Ht. constructor.
Qed.

Lemma for_each_b64_drawing (F : float_ops) (E : collaborators)
    (m : StaticMap) (w h : Z) (ms : list Marker) :
  match for_each ms (draw_label_b64 F E m w h) with
  | IO t _ => Forall is_drawing t
  end.
Proof.
  induction ms as [| mk ms IH]; cbn; [constructor |].
  pose proof (draw_label_b64_drawing F E m w h mk) as Hd.
  destruct (draw_label_b64 F E m w h mk) as [t [[] | e]]; cbn; [| exact Hd].
  destruct (for_each ms (draw_label_b64 F E m w h)) as [t' r'].
  apply Forall_app. split; assumption.
Qed.

(** The label loop when every label can be drawn. *)
Lemma for_each_b64_drawable (F : float_ops) (E : collaborators) (m : StaticMap)
    (w h : Z) (ms : list Marker) :
  Forall (label_drawable F E m w h) ms ->
  exists t : list event,
    for_each ms (draw_label_b64 F E m w h) = IO t (Ret tt) /\
    Forall is_drawing t /\
    drawn_texts t = omap marker_text ms /\
    length (drawn_boxes t) = length (drawn_texts t).
Proof.
  induction 1 as [| mk ms Hmk _ IH].
  - exists []. cbn. repeat split; constructor.
  - destruct IH as (t & Hrun & Hdraw & Htexts & Hlen).
    cbn [for_each]. destruct (marker_text mk) as [s |] eqn:Ht.
    + destruct (draw_label_b64_drawable F E m w h mk s Ht Hmk)
        as (b & o & Hone).
      rewrite Hone. cbn. rewrite Hrun.
      exists (EvRectangle b "white" "gray" :: EvText o s "black" :: t).
      split; [reflexivity |]. split; [repeat constructor; exact Hdraw |].
      cbn. rewrite Ht. fold (drawn_texts t). fold (drawn_boxes t).
      rewrite Htexts. split; [reflexivity |].
      cbn. rewrite Hlen, Htexts. reflexivity.
    + rewrite draw_label_b64_none by exact Ht. cbn. rewrite Hrun.
      exists t. split; [reflexivity |]. split; [exact Hdraw |].
      cbn. rewrite Ht. fold (omap marker_text ms). tauto.
Qed.

(** X8.  The labels drawn.  With every operation in double precision and
    calls that can raise: when, for every marker that gets a label, the
    projection returns a pixel on the view and the calls that measure the
    text and draw the rectangle and the text return, the label loop ends
    without an exception, calls only [rectangle] and [text], one as often as
    the other, and the texts are the non-empty labels of the markers that
    have a position, in the order of the markers. *)
Theorem labels_drawn (F : float_ops) (E : collaborators) (m : StaticMap)
    (w h : Z) (ms : list Marker) :
  Forall (label_drawable F E m w h) ms ->
  exists t : list event,
    for_each ms (draw_label_b64 F E m w h) = IO t (Ret tt) /\
    Forall is_drawing t /\
    drawn_texts t = omap marker_text ms /\
    length (drawn_boxes t) = length (drawn_texts t).
Proof. apply for_each_b64_drawable. Qed.

(** On the equator of a view like [world_view] a label can be drawn with
    the example collaborators. *)
Lemma equator_pixel (m : StaticMap) (lon : R) :
  zoom m = 0%Z -> x_center m = 1 / 2 -> y_center m = 1 / 2 ->
  tile_size m = 256%Z -> width m = 800%Z -> height m = 600%Z ->
  _geo_to_pixel m lon 0 =
    Ret (py_int ((lon + 180) / 360 * 256 - 128 + 400), 300%Z).
Proof.
  intros Hz Hx Hy Hts Hw Hh.
  rewrite geo_to_pixel_spec by lra.
  unfold spec_pixel, spec_tileX. rewrite Hz, Hx, Hy, Hts, Hw, Hh.
  rewrite spec_tileY_equator. unfold pow2. cbn [powerRZ].
  f_equal. f_equal.
  - f_equal. lra.
  - replace ((1 / 2 - 1 / 2) * 256 + 600 / 2) with (IZR 300) by lra.
    apply py_int_IZR.
Qed.

Lemma equator_drawable (m : StaticMap) (lon : R) (label : option string) :
  zoom m = 0%Z -> x_center m = 1 / 2 -> y_center m = 1 / 2 ->
  tile_size m = 256%Z -> width m = 800%Z -> height m = 600%Z ->
  label_drawable exact_ops example_collaborators m 800 600
    (mkMarker (Some lon) (Some 0) label).
Proof.
  intros Hz Hx Hy Hts Hw Hh s lon' lat Ht Hlon Hlat. cbn in Hlon, Hlat.
  injection Hlon as <-. injection Hlat as <-.
  rewrite geo_to_pixel_exact, equator_pixel by assumption.
  destruct (example_textbbox s) as [[[b0 b1] b2] b3] eqn:Hb.
  exists (py_int ((lon + 180) / 360 * 256 - 128 + 400)), 300%Z, b0, b1, b2, b3.
  split; [reflexivity |]. split; [cbn; now rewrite Hb |].
  split; reflexivity.
Qed.

Lemma labels_drawn_witness :
  exists t : list event,
    for_each [mkMarker (Some 0) (Some 0) (Some "A");
              mkMarker (Some 1) None (Some "B");
              mkMarker (Some 2) (Some 0) None]
      (draw_label_b64 exact_ops example_collaborators world_view 800 600) =
      IO t (Ret tt) /\
    Forall is_drawing t /\
    drawn_texts t =
      omap marker_text [mkMarker (Some 0) (Some 0) (Some "A");
                        mkMarker (Some 1) None (Some "B");
                        mkMarker (Some 2) (Some 0) None] /\
    length (drawn_boxes t) = length (drawn_texts t).
Proof.
  apply (labels_drawn exact_ops example_collaborators world_view 800 600).
  constructor; [| constructor; [| constructor; [| constructor]]].
  - now apply equator_drawable.
  - intros s lon lat _ _ Hlat. discriminate Hlat.
  - now apply equator_drawable.
Defined.

(** The guard [if markers:] of the label block only skips a loop that would
    do nothing; the drawing context and the font come first. *)
Lemma label_block_ready (F : float_ops) (E : collaborators) (m : StaticMap)
    (w h : Z) (ms : option (list Marker)) :
  drawing_ready E ms ->
  (if list_truthy ms
   then
     _ ← lift (ext_Draw E);
     _ ← lift (load_font E);
     for_each (default [] ms) (draw_label_b64 F E m w h)
   else mret tt) =
    for_each (default [] ms) (draw_label_b64 F E m w h).
Proof.
  intros Hready. destruct (list_truthy ms) eqn:Hms.
  - destruct (Hready Hms) as [-> ->]. now rewrite !bind_lift_ret.
  - destruct ms as [[| mk ms] |]; [reflexivity | discriminate | reflexivity].
Qed.

Lemma label_block_drawing (F : float_ops) (E : collaborators) (m : StaticMap)
    (w h : Z) (ms : option (list Marker)) :
  match (if list_truthy ms
         then
           _ ← lift (ext_Draw E);
           _ ← lift (load_font E);
           for_each (default [] ms) (draw_label_b64 F E m w h)
         else mret tt) with
  | IO t _ => Forall is_drawing t
  end.
Proof.
  destruct (list_truthy ms); [| constructor].
  destruct (ext_Draw E) as [[] | e]; [rewrite bind_lift_ret | constructor].
  destruct (load_font E) as [[] | e]; [rewrite bind_lift_ret | constructor].
  apply for_each_b64_drawing.
Qed.

(** The run of the render operation on a route that passes the guard and
    whose entries all have two numbers: the tiles are rendered for the map
    with its line and markers, the labels are drawn, the path is resolved,
    its directory made and the file saved, up to the first call that
    raises. *)
Lemma render_route_map_b64_run (F : float_ops) (E : collaborators)
    (coords : list (list R)) (lcs : list (R * R)) (out : string)
    (ms : option (list Marker)) (w h : Z) (lc : string) (lw : Z)
    (bm : string) :
  (2 <= length coords)%nat ->
  mapM coord_pair coords = Ret lcs ->
  let url := dict_get BASEMAPS bm
               "https://a.tile.openstreetmap.org/{z}/{x}/{y}.png" in
  let m0 := for_fold (default [] ms) add_route_marker
              (add_line (StaticMap_new (ext_tile_size E) w h 20 20 url)
                 (mkLine lcs lc lw)) in
  render_route_map_b64 F E coords out ms w h lc lw bm =
    match ext_render E m0 with
    | Raise e => IO [EvRender m0] (Raise e)
    | Ret v =>
        match (if list_truthy ms
               then
                 _ ← lift (ext_Draw E);
                 _ ← lift (load_font E);
                 for_each (default [] ms)
                   (draw_label_b64 F E (set_view m0 v) w h)
               else mret tt) with
        | IO t (Raise e) => IO (EvRender m0 :: t) (Raise e)
        | IO t (Ret _) =>
            match ext_resolve E out with
            | Raise e => IO (EvRender m0 :: t) (Raise e)
            | Ret p =>
                match ext_mkdir E p with
                | Raise e =>
                    IO (EvRender m0 :: t ++ [EvMkdirParent p]) (Raise e)
                | Ret _ =>
                    match ext_save E p "PNG" with
                    | Raise e =>
                        IO (EvRender m0
                              :: t ++ [EvMkdirParent p; EvSave p "PNG"])
                           (Raise e)
                    | Ret _ =>
                        IO (EvRender m0
                              :: t ++ [EvMkdirParent p; EvSave p "PNG"])
                           (Ret p)
                    end
                end
            end
        end
    end.
Proof.
  intros Hlen Hmap url m0. unfold render_route_map_b64.
  destruct (Nat.ltb_spec (length coords) 2) as [Hlt | _]; [lia |].
  rewrite tile_url_get, bind_lift_ret, Hmap, bind_lift_ret.
  rewrite fold_guard. fold url. fold m0.
  unfold render_b64.
  destruct (ext_render E m0) as [v | e]; [| reflexivity].
  cbn [call mbind io_bind mret io_ret app].
  destruct (if list_truthy ms then _ else _) as [t [[] | e]];
    [| reflexivity].
  cbn [mbind io_bind].
  destruct (ext_resolve E out) as [p | e]; cbn;
    [| now rewrite app_nil_r].
  destruct (ext_mkdir E p) as [[] | e]; cbn; [| reflexivity].
  destruct (ext_save E p "PNG") as [[] | e]; cbn; reflexivity.
Qed.

(** With exact arithmetic and collaborators that always return, the render
    operation is the one of the first part. *)
Lemma draw_label_exact (dts : Z) (rv : StaticMap -> Z * R * R)
    (tb : string -> Z * Z * Z * Z) (rs : string -> string)
    (m : StaticMap) (w h : Z) (mk : Marker) :
  draw_label_b64 exact_ops (returning dts rv tb rs) m w h mk =
    draw_label tb m w h mk.
Proof.
  unfold draw_label_b64, draw_label.
  destruct (marker_lon mk) as [lon |]; [| reflexivity].
  destruct (marker_lat mk) as [lat |]; [| reflexivity].
  destruct (str_falsy _); [reflexivity |].
  rewrite geo_to_pixel_exact.
  destruct (_geo_to_pixel m lon lat) as [[px py] | e]; [| reflexivity].
  rewrite !bind_lift_ret. cbn [returning ext_textbbox].
  rewrite bind_lift_ret.
  destruct (tb _) as [[[b0 b1] b2] b3]. cbv zeta.
  destruct (label_origin _ _ _ _ _ _) as [lx ly]. reflexivity.
Qed.

Lemma for_each_ext {A : Type} (l : list A) (f g : A -> io unit) :
  (forall a : A, f a = g a) -> for_each l f = for_each l g.
Proof.
  intros Hfg. induction l as [| a l IH]; [reflexivity |].
  cbn [for_each]. now rewrite Hfg, IH.
Qed.

Lemma render_route_map_exact (dts : Z) (rv : StaticMap -> Z * R * R)
    (tb : string -> Z * Z * Z * Z) (rs : string -> string)
    (coords : list (list R)) (out : string) (ms : option (list Marker))
    (w h : Z) (lc : string) (lw : Z) (bm : string) :
  render_route_map_b64 exact_ops (returning dts rv tb rs)
    coords out ms w h lc lw bm =
  render_route_map dts rv tb rs coords out ms w h lc lw bm.
Proof.
  unfold render_route_map_b64, render_route_map.
  destruct (length coords <? 2)%nat; [reflexivity |].
  rewrite tile_url_get, !bind_lift_ret.
  destruct (mapM coord_pair coords) as [lcs | e]; [| reflexivity].
  rewrite !bind_lift_ret.
  unfold render_b64, render.
  cbn [returning ext_tile_size ext_render ext_resolve ext_mkdir ext_save
       call emit mbind io_bind mret io_ret app].
  rewrite (label_block_ready exact_ops (returning dts rv tb rs))
    by (intros _; split; reflexivity).
  rewrite each_guard.
  rewrite (for_each_ext _ _ _ (draw_label_exact dts rv tb rs _ w h)).
  destruct (for_each _ _) as [t [[] | e]]; reflexivity.
Qed.

(** X9.  A render that succeeds.  With every operation in double precision
    and calls that can raise: for a route of two entries or more, each with
    two numbers or more, when the tile renderer returns a view, the drawing
    context and a font are there, every label can be drawn on that view,
    the output path resolves and the directory and the save calls return,
    the render operation returns the resolved path; it calls the tile
    renderer first and once, then only draws, the texts being the non-empty
    labels of the markers with a position, and last makes the parent
    directory and saves the image as PNG at the path it returns. *)
Theorem render_succeeds (F : float_ops) (E : collaborators)
    (coords : list (list R)) (out : string) (ms : option (list Marker))
    (w h : Z) (lc : string) (lw : Z) (bm : string)
    (v : Z * R * R) (p : string) :
  (2 <= length coords)%nat ->
  Forall (fun c => (2 <= length c)%nat) coords ->
  ext_render E (map_to_render E coords ms w h lc lw bm) = Ret v ->
  drawing_ready E ms ->
  Forall (label_drawable F E
            (set_view (map_to_render E coords ms w h lc lw bm) v) w h)
    (default [] ms) ->
  ext_resolve E out = Ret p ->
  ext_mkdir E p = Ret tt ->
  ext_save E p "PNG" = Ret tt ->
  exists t : list event,
    render_route_map_b64 F E coords out ms w h lc lw bm =
      IO (EvRender (map_to_render E coords ms w h lc lw bm)
            :: t ++ [EvMkdirParent p; EvSave p "PNG"])
         (Ret p) /\
    Forall is_drawing t /\
    drawn_texts t = omap marker_text (default [] ms).
Proof.
  intros Hlen Hpairs Hrender Hready Hlabels Hres Hmk Hsave.
  rewrite (render_route_map_b64_run F E coords _ out ms w h lc lw bm
             Hlen (coord_pairs coords Hpairs)).
  fold (map_to_render E coords ms w h lc lw bm).
  rewrite Hrender, (label_block_ready F E _ w h ms Hready).
  destruct (for_each_b64_drawable F E _ w h _ Hlabels)
    as (t & Hrun & Hdraw & Htexts & _).
  rewrite Hrun, Hres, Hmk, Hsave. eauto.
Qed.

Lemma example_render_returns (m : StaticMap) :
  ext_render example_collaborators m = Ret (example_render_view m).
Proof. reflexivity. Qed.

Lemma example_drawing_ready (ms : option (list Marker)) :
  drawing_ready example_collaborators ms.
Proof. intros _. split; reflexivity. Qed.

Lemma render_succeeds_witness :
  exists t : list event,
    render_route_map_b64 exact_ops example_collaborators
      example_route "out.png"
      (Some [mkMarker (Some (-171 / 10)) (Some 0) (Some "Start")])
      800 600 "black" 3 "osm" =
      IO (EvRender
            (map_to_render example_collaborators example_route
               (Some [mkMarker (Some (-171 / 10)) (Some 0) (Some "Start")])
               800 600 "black" 3 "osm")
            :: t ++ [EvMkdirParent "out.png"; EvSave "out.png" "PNG"])
         (Ret "out.png") /\
    Forall is_drawing t /\
    drawn_texts t =
      omap marker_text
        (default []
           (Some [mkMarker (Some (-171 / 10)) (Some 0) (Some "Start")])).
Proof.
  apply (render_succeeds exact_ops example_collaborators example_route
           "out.png"
           (Some [mkMarker (Some (-171 / 10)) (Some 0) (Some "Start")])
           800 600 "black" 3 "osm"
           (example_render_view
              (map_to_render example_collaborators example_route
                 (Some [mkMarker (Some (-171 / 10)) (Some 0) (Some "Start")])
                 800 600 "black" 3 "osm"))
           "out.png").
  - cbn. lia.
  - repeat constructor; cbn; lia.
  - apply example_render_returns.
  - apply example_drawing_ready.
  - constructor; [| constructor]. now apply equator_drawable.
  - reflexivity.
  - reflexivity.
  - reflexivity.
Defined.

Lemma drawing_not_in (t : list event) (e : event) :
  Forall is_drawing t -> ~ is_drawing e -> ~ In e t.
Proof.
  intros Hd He Hin. rewrite Forall_forall in Hd.
  apply list_elem_of_In in Hin. exact (He (Hd e Hin)).
Qed.

(** X12.  The file is written last.  With calls that can raise, for all
    inputs: a save in the trace of the render operation is of format PNG at
    the resolved output path; it is the last call, after the tile renderer,
    the drawings and the making of the directory, which returned; and the
    operation then returns that path if the save returns and raises what
    the save raises otherwise.  A directory is made only for the resolved
    output path, after the tile renderer and the drawings only.  And when
    the operation returns a string, either it called nothing and the string
    is the error message, or the string is the resolved output path and a
    PNG has been saved there by a call that returned. *)
Theorem writes_come_last (F : float_ops) (E : collaborators)
    (coords : list (list R)) (out : string) (ms : option (list Marker))
    (w h : Z) (lc : string) (lw : Z) (bm : string) :
  match render_route_map_b64 F E coords out ms w h lc lw bm with
  | IO t r =>
      (forall p f : string,
         In (EvSave p f) t ->
         ext_resolve E out = Ret p /\ f = "PNG" /\ ext_mkdir E p = Ret tt /\
         (exists (m0 : StaticMap) (t0 : list event),
            Forall is_drawing t0 /\
            t = EvRender m0 :: t0 ++ [EvMkdirParent p; EvSave p "PNG"]) /\
         r = (_ ← ext_save E p "PNG"; Ret p)) /\
      (forall p : string,
         In (EvMkdirParent p) t ->
         ext_resolve E out = Ret p /\
         exists (m0 : StaticMap) (t0 t1 : list event),
           Forall is_drawing t0 /\
           t = EvRender m0 :: t0 ++ EvMkdirParent p :: t1 /\
           (t1 = [] \/ t1 = [EvSave p "PNG"])) /\
      (forall s : string,
         r = Ret s ->
         (t = [] /\
          s = "Error: coordinates must contain at least 2 [lon, lat] pairs.") \/
         (ext_resolve E out = Ret s /\ ext_save E s "PNG" = Ret tt /\
          In (EvSave s "PNG") t))
  end.
Proof.
  destruct (Nat.ltb_spec (length coords) 2) as [Hlt | Hge].
  { unfold render_route_map_b64.
    destruct (Nat.ltb_spec (length coords) 2) as [_ | Hge']; [| lia].
    cbn. split; [| split]; try (intros; tauto).
    intros s Hs. injection Hs as <-. left. tauto. }
  destruct (mapM coord_pair coords) as [lcs | e0] eqn:Hmap.
  2:{ unfold render_route_map_b64.
      destruct (Nat.ltb_spec (length coords) 2) as [Hlt | _]; [lia |].
      rewrite tile_url_get, bind_lift_ret, Hmap.
      cbn. split; [| split]; try (intros; tauto). intros; discriminate. }
  rewrite (render_route_map_b64_run F E coords lcs out ms w h lc lw bm
             Hge Hmap).
  match goal with
  | |- context [ext_render E ?m] => set (m0 := m)
  end.
  destruct (ext_render E m0) as [v | e].
  2:{ split; [| split].
      - intros p f [Hin | []]. discriminate.
      - intros p [Hin | []]. discriminate.
      - intros; discriminate. }
  pose proof (label_block_drawing F E (set_view m0 v) w h ms) as Hd.
  destruct (if list_truthy ms then _ else _) as [t [[] | e]].
  2:{ split; [| split].
      - intros p f [Hin | Hin]; [discriminate |].
        exfalso. revert Hin. apply drawing_not_in; [exact Hd | cbn; tauto].
      - intros p [Hin | Hin]; [discriminate |].
        exfalso. revert Hin. apply drawing_not_in; [exact Hd | cbn; tauto].
      - intros; discriminate. }
  destruct (ext_resolve E out) as [q | e].
  2:{ split; [| split].
      - intros p f [Hin | Hin]; [discriminate |].
        exfalso. revert Hin. apply drawing_not_in; [exact Hd | cbn; tauto].
      - intros p [Hin | Hin]; [discriminate |].
        exfalso. revert Hin. apply drawing_not_in; [exact Hd | cbn; tauto].
      - intros; discriminate. }
  destruct (ext_mkdir E q) as [[] | e] eqn:Hmk.
  2:{ split; [| split].
      - intros p f [Hin | Hin]; [discriminate |].
        apply in_app_or in Hin. destruct Hin as [Hin | Hin].
        { exfalso. revert Hin. apply drawing_not_in; [exact Hd | cbn; tauto]. }
        destruct Hin as [Hin | []]. discriminate.
      - intros p [Hin | Hin]; [discriminate |].
        apply in_app_or in Hin. destruct Hin as [Hin | Hin].
        { exfalso. revert Hin. apply drawing_not_in; [exact Hd | cbn; tauto]. }
        destruct Hin as [Hin | []]. injection Hin as <-.
        split; [reflexivity |]. exists m0, t, []. tauto.
      - intros; discriminate. }
  assert (Hsave : forall p f : string,
            In (EvSave p f)
              (EvRender m0 :: t ++ [EvMkdirParent q; EvSave q "PNG"]) ->
            p = q /\ f = "PNG").
  { intros p f [Hin | Hin]; [discriminate |].
    apply in_app_or in Hin. destruct Hin as [Hin | Hin].
    { exfalso. revert Hin. apply drawing_not_in; [exact Hd | cbn; tauto]. }
    destruct Hin as [Hin | [Hin | []]]; [discriminate |].
    injection Hin as <- <-. tauto. }
  assert (Hdir : forall p : string,
            In (EvMkdirParent p)
              (EvRender m0 :: t ++ [EvMkdirParent q; EvSave q "PNG"]) ->
            p = q).
  { intros p [Hin | Hin]; [discriminate |].
    apply in_app_or in Hin. destruct Hin as [Hin | Hin].
    { exfalso. revert Hin. apply drawing_not_in; [exact Hd | cbn; tauto]. }
    destruct Hin as [Hin | [Hin | []]]; [| discriminate].
    now injection Hin as <-. }
  assert (Hlast : In (EvSave q "PNG")
                    (EvRender m0 :: t ++ [EvMkdirParent q; EvSave q "PNG"])).
  { right. apply in_or_app. right. right. left. reflexivity. }
  destruct (ext_save E q "PNG") as [[] | e] eqn:Hsv.
  - split; [| split].
    + intros p f Hin. destruct (Hsave p f Hin) as [-> ->].
      split; [reflexivity |]. split; [reflexivity |]. split; [exact Hmk |].
      split; [exists m0, t; tauto |]. rewrite Hsv. reflexivity.
    + intros p Hin. rewrite (Hdir p Hin).
      split; [reflexivity |]. exists m0, t, [EvSave q "PNG"]. tauto.
    + intros s Hs. injection Hs as <-. right. tauto.
  - split; [| split].
    + intros p f Hin. destruct (Hsave p f Hin) as [-> ->].
      split; [reflexivity |]. split; [reflexivity |]. split; [exact Hmk |].
      split; [exists m0, t; tauto |]. rewrite Hsv. reflexivity.
    + intros p Hin. rewrite (Hdir p Hin).
      split; [reflexivity |]. exists m0, t, [EvSave q "PNG"]. tauto.
    + intros; discriminate.
Qed.

Lemma for_each_b64_aborts (F : float_ops) (E : collaborators) (m : StaticMap)
    (w h : Z) (ms1 ms2 : list Marker) (mk : Marker) (s : string)
    (lon lat : R) (e : exn) :
  Forall (label_drawable F E m w h) ms1 ->
  marker_text mk = Some s ->
  marker_lon mk = Some lon -> marker_lat mk = Some lat ->
  _geo_to_pixel_b64 F m lon lat = Raise e ->
  exists t : list event,
    for_each (ms1 ++ mk :: ms2) (draw_label_b64 F E m w h) = IO t (Raise e) /\
    Forall is_drawing t /\
    drawn_texts t = omap marker_text ms1.
Proof.
  intros Hdraw Ht Hlon Hlat Hraise.
  induction Hdraw as [| a ms1 Ha _ IH].
  - exists []. cbn [app for_each].
    rewrite (draw_label_b64_some F E m w h mk s lon lat Ht Hlon Hlat).
    rewrite Hraise. repeat split; constructor.
  - destruct IH as (t & Hrun & Hd & Htexts).
    change ((a :: ms1) ++ mk :: ms2)%list with (a :: (ms1 ++ mk :: ms2))%list.
    cbn [for_each]. destruct (marker_text a) as [sa |] eqn:Hta.
    + destruct (draw_label_b64_drawable F E m w h a sa Hta Ha)
        as (b & o & Hone).
      rewrite Hone. cbn. rewrite Hrun.
      exists (EvRectangle b "white" "gray" :: EvText o sa "black" :: t).
      split; [reflexivity |]. split; [repeat constructor; exact Hd |].
      cbn. rewrite Hta. fold (drawn_texts t). rewrite Htexts. reflexivity.
    + rewrite draw_label_b64_none by exact Hta. cbn. rewrite Hrun.
      exists t. split; [reflexivity |]. split; [exact Hd |].
      cbn. rewrite Hta. exact Htexts.
Qed.

(** X13.  A label that cannot be projected aborts the render.  With every
    operation in double precision and calls that can raise: for a route of
    two entries or more, each with two numbers or more, when the tile
    renderer returns a view, the drawing context and a font are there, the
    markers before it can all be labelled on that view and the projection
    raises an exception for a marker with a position and a non-empty label,
    the render operation raises that exception once the tiles are rendered
    and the earlier labels drawn; the trace ends there, without a
    directory, a save or a label of a later marker. *)
Theorem label_failure_aborts (F : float_ops) (E : collaborators)
    (coords : list (list R)) (out : string) (ms1 ms2 : list Marker)
    (mk : Marker) (s : string) (lon lat : R) (e : exn)
    (w h : Z) (lc : string) (lw : Z) (bm : string) (v : Z * R * R) :
  (2 <= length coords)%nat ->
  Forall (fun c => (2 <= length c)%nat) coords ->
  ext_render E
    (map_to_render E coords (Some (ms1 ++ mk :: ms2)%list) w h lc lw bm) =
    Ret v ->
  ext_Draw E = Ret tt -> load_font E = Ret tt ->
  Forall (label_drawable F E
            (set_view
               (map_to_render E coords (Some (ms1 ++ mk :: ms2)%list)
                  w h lc lw bm) v) w h) ms1 ->
  marker_text mk = Some s ->
  marker_lon mk = Some lon -> marker_lat mk = Some lat ->
  _geo_to_pixel_b64 F
    (set_view
       (map_to_render E coords (Some (ms1 ++ mk :: ms2)%list) w h lc lw bm) v)
    lon lat = Raise e ->
  exists t : list event,
    render_route_map_b64 F E coords out (Some (ms1 ++ mk :: ms2)%list)
      w h lc lw bm =
      IO (EvRender
            (map_to_render E coords (Some (ms1 ++ mk :: ms2)%list)
               w h lc lw bm) :: t)
         (Raise e) /\
    Forall is_drawing t /\
    drawn_texts t = omap marker_text ms1.
Proof.
  intros Hlen Hpairs Hrender HDraw Hfont Hlabels Ht Hlon Hlat Hraise.
  rewrite (render_route_map_b64_run F E coords _ out _ w h lc lw bm
             Hlen (coord_pairs coords Hpairs)).
  fold (map_to_render E coords (Some (ms1 ++ mk :: ms2)%list) w h lc lw bm).
  rewrite Hrender.
  rewrite label_block_ready by (intros _; split; assumption).
  cbn [default from_option]. unfold Datatypes.id.
  destruct (for_each_b64_aborts F E _ w h ms1 ms2 mk s lon lat e
              Hlabels Ht Hlon Hlat Hraise) as (t & Hrun & Hd & Htexts).
  rewrite Hrun. eauto.
Qed.

Lemma label_failure_aborts_witness :
  exists t : list event,
    render_route_map_b64 exact_ops example_collaborators
      example_route "out.png"
      (Some ([mkMarker (Some 0) (Some 0) (Some "A")]
             ++ mkMarker (Some 0) (Some 100) (Some "N")
             :: [mkMarker (Some 1) (Some 0) (Some "B")])%list)
      800 600 "black" 3 "osm" =
      IO (EvRender
            (map_to_render example_collaborators example_route
               (Some ([mkMarker (Some 0) (Some 0) (Some "A")]
                      ++ mkMarker (Some 0) (Some 100) (Some "N")
                      :: [mkMarker (Some 1) (Some 0) (Some "B")])%list)
               800 600 "black" 3 "osm") :: t)
         (Raise ValueError) /\
    Forall is_drawing t /\
    drawn_texts t = omap marker_text [mkMarker (Some 0) (Some 0) (Some "A")].
Proof.
  apply (label_failure_aborts exact_ops example_collaborators example_route
           "out.png" [mkMarker (Some 0) (Some 0) (Some "A")]
           [mkMarker (Some 1) (Some 0) (Some "B")]
           (mkMarker (Some 0) (Some 100) (Some "N")) "N" 0 100 ValueError
           800 600 "black" 3 "osm"
           (example_render_view
              (map_to_render example_collaborators example_route
                 (Some ([mkMarker (Some 0) (Some 0) (Some "A")]
                        ++ mkMarker (Some 0) (Some 100) (Some "N")
                        :: [mkMarker (Some 1) (Some 0) (Some "B")])%list)
                 800 600 "black" 3 "osm"))).
  - cbn. lia.
  - repeat constructor; cbn; lia.
  - apply example_render_returns.
  - reflexivity.
  - reflexivity.
  - constructor; [| constructor]. now apply equator_drawable.
  - reflexivity.
  - reflexivity.
  - reflexivity.
  - rewrite geo_to_pixel_exact. unfold _geo_to_pixel.
    rewrite y_tile_beyond_pole by (left; lra). reflexivity.
Defined.

(** ** The mock renderer *)

Lemma to_pixel_b64_centre (F : float_ops) (c : R) (ts ext : Z) :
  fl_rnd F 0 = 0 -> fl_rnd F (IZR ext / 2) = IZR ext / 2 ->
  to_pixel_b64 F c c ts ext = Z.quot ext 2.
Proof.
  intros H0 Hh. unfold to_pixel_b64.
  replace (c - c) with 0 by lra. rewrite H0.
  replace (0 * float_of_int F ts) with 0 by lra. rewrite H0, Hh.
  replace (0 + IZR ext / 2) with (IZR ext / 2) by lra. rewrite Hh.
  apply py_int_half.
Qed.

Lemma center_exact_b64 (F : float_ops) (m : StaticMap) (lon lat : R) :
  fl_rnd F 0 = 0 ->
  fl_rnd F (IZR (width m) / 2) = IZR (width m) / 2 ->
  fl_rnd F (IZR (height m) / 2) = IZR (height m) / 2 ->
  x_tile_b64 F (zoom m) lon = x_center m ->
  y_tile_b64 F (zoom m) lat = Ret (y_center m) ->
  _geo_to_pixel_b64 F m lon lat =
    Ret (Z.quot (width m) 2, Z.quot (height m) 2).
Proof.
  intros H0 Hw Hh Hx Hy. unfold _geo_to_pixel_b64. rewrite Hy, Hx. cbn.
  rewrite !to_pixel_b64_centre by assumption. reflexivity.
Qed.

Lemma x_tile_b64_equator (F : float_ops) (z : Z) :
  exact_at_equator F z -> x_tile_b64 F z 0 = fl_rnd F (pow2 z / 2).
Proof.
  intros (Hhalf & H1 & H180 & Hp & _). unfold x_tile_b64, pow2_b64.
  replace (0 + 180) with 180 by lra. rewrite H180.
  replace (180 / 360) with (1 / 2) by lra. rewrite Hhalf, Hp.
  f_equal. lra.
Qed.

Lemma y_tile_b64_equator (F : float_ops) (z : Z) :
  fl_rnd F 0 = 0 -> exact_at_equator F z ->
  y_tile_b64 F z 0 = Ret (fl_rnd F (pow2 z / 2)).
Proof.
  intros H0 (Hhalf & H1 & H180 & Hp & Htan & Hcos & Hlog).
  unfold y_tile_b64, math_radians_b64, py_truediv_b64, math_log_b64, pow2_b64.
  replace (0 * fl_rnd F (math_pi_b64 F / 180)) with 0 by lra.
  rewrite H0, Htan, Hcos.
  destruct (Req_dec_T 1 0) as [Hbad | _]; [lra |].
  cbn. replace (1 / 1) with 1 by lra. rewrite H1.
  replace (0 + 1) with 1 by lra. rewrite H1.
  destruct (Rlt_dec 0 1) as [_ | Hbad]; [| lra].
  cbn. rewrite Hlog.
  replace (0 / math_pi_b64 F) with 0 by (unfold Rdiv; lra). rewrite H0.
  replace (1 - 0) with 1 by lra. rewrite H1, Hhalf, Hp.
  do 2 f_equal. lra.
Qed.

(** X14.  The mock renderer centres the view on the extent.  With the test
    suite's [_mock_render] in place of [render], every operation in double
    precision, a rounding that leaves 0 and the halves of the image width
    and height as they are: whenever the mock returns, the map has zoom
    [zoom or 10] and the image size it had, and the projection sends the
    middle of the map's extent, as the mock computes it, to the pixel
    (width quot 2, height quot 2); when the map has no extent and the
    doubles met at the equator are exact, it sends longitude 0 and
    latitude 0 there. *)
Theorem mock_render_centre (F : float_ops)
    (determine_extent : StaticMap -> Z -> result (option (R * R * R * R)))
    (image_new : Z -> Z -> result unit)
    (self m : StaticMap) (zoom_arg : option Z)
    (extent : option (R * R * R * R)) :
  fl_rnd F 0 = 0 ->
  fl_rnd F (IZR (width self) / 2) = IZR (width self) / 2 ->
  fl_rnd F (IZR (height self) / 2) = IZR (height self) / 2 ->
  determine_extent
    (set_view self (zoom_or_10 zoom_arg, x_center self, y_center self))
    (zoom_or_10 zoom_arg) = Ret extent ->
  _mock_render F determine_extent image_new self zoom_arg = Ret m ->
  zoom m = zoom_or_10 zoom_arg /\
  width m = width self /\ height m = height self /\
  match extent with
  | Some (min_lon, min_lat, max_lon, max_lat) =>
      _geo_to_pixel_b64 F m
        (fl_rnd F (fl_rnd F (min_lon + max_lon) / 2))
        (fl_rnd F (fl_rnd F (min_lat + max_lat) / 2)) =
        Ret (Z.quot (width self) 2, Z.quot (height self) 2)
  | None =>
      exact_at_equator F (zoom_or_10 zoom_arg) ->
      _geo_to_pixel_b64 F m 0 0 =
        Ret (Z.quot (width self) 2, Z.quot (height self) 2)
  end.
Proof.
  intros H0 Hw Hh Hext Hret. unfold _mock_render in Hret.
  rewrite Hext in Hret. cbn [mbind result_bind] in Hret.
  set (z := zoom_or_10 zoom_arg) in *.
  destruct extent as [[[[a b] c] d] |].
  - destruct (py_truediv_b64 F 1 _) as [sec | e] eqn:Hsec; [| discriminate].
    cbn [mbind result_bind] in Hret.
    destruct (math_log_b64 F _) as [l | e] eqn:Hlog; [| discriminate].
    cbn [mbind result_bind] in Hret.
    destruct (image_new _ _) as [[] | e]; [| discriminate].
    cbn in Hret. injection Hret as <-.
    split; [reflexivity |]. split; [reflexivity |]. split; [reflexivity |].
    rewrite center_exact_b64;
      [reflexivity | exact H0 | exact Hw | exact Hh | reflexivity |].
    cbn. unfold y_tile_b64. rewrite Hsec. cbn. rewrite Hlog. reflexivity.
  - assert (Hhalf : exact_at_equator F z ->
              (if (0 <=? z)%Z then fl_rnd F (pow2 z / 2)
               else fl_rnd F (pow2_b64 F z / 2)) = fl_rnd F (pow2 z / 2)).
    { intros (_ & _ & _ & Hp & _). unfold pow2_b64. rewrite Hp.
      now destruct (0 <=? z)%Z. }
    cbn [mbind result_bind] in Hret.
    destruct (image_new _ _) as [[] | e]; [| discriminate].
    cbn in Hret. injection Hret as <-.
    split; [reflexivity |]. split; [reflexivity |]. split; [reflexivity |].
    intros He. rewrite (Hhalf He).
    rewrite center_exact_b64;
      [reflexivity | exact H0 | exact Hw | exact Hh | |].
    + cbn. now apply x_tile_b64_equator.
    + cbn. now apply y_tile_b64_equator.
Qed.

Lemma mock_render_returns_example :
  exists m : StaticMap,
    _mock_render exact_ops example_extent (fun _ _ => Ret tt) world_view
      (Some 0%Z) = Ret m.
Proof.
  unfold _mock_render, example_extent. cbn [mbind result_bind].
  assert (Hmid : -90 < (281 / 10 + 282 / 10) / 2 < 90) by lra.
  pose proof (y_tile_spec (zoom_or_10 (Some 0%Z)) _ Hmid) as Hy.
  change (y_tile (zoom_or_10 (Some 0%Z)) ((281 / 10 + 282 / 10) / 2))
    with (y_tile_b64 exact_ops (zoom_or_10 (Some 0%Z))
            ((281 / 10 + 282 / 10) / 2)) in Hy.
  unfold y_tile_b64 in Hy.
  change (fl_rnd exact_ops (fl_rnd exact_ops (281 / 10 + 282 / 10) / 2))
    with ((281 / 10 + 282 / 10) / 2).
  destruct (py_truediv_b64 exact_ops 1 _) as [sec | e]; [| discriminate].
  cbn [mbind result_bind] in Hy |- *.
  destruct (math_log_b64 exact_ops _) as [l | e]; [| discriminate].
  cbn. eauto.
Qed.

Lemma exact_ops_at_equator (z : Z) : exact_at_equator exact_ops z.
Proof.
  unfold exact_at_equator. cbn.
  repeat split; auto using tan_0, cos_0, ln_1.
Qed.

Lemma mock_render_centre_witness :
  (exists m : StaticMap,
     _mock_render exact_ops example_extent (fun _ _ => Ret tt) world_view
       (Some 0%Z) = Ret m /\
     zoom m = 10%Z /\ width m = 800%Z /\ height m = 600%Z /\
     _geo_to_pixel_b64 exact_ops m
       ((-173 / 10 + -171 / 10) / 2) ((281 / 10 + 282 / 10) / 2) =
       Ret (Z.quot 800 2, Z.quot 600 2)) /\
  (exists m : StaticMap,
     _mock_render exact_ops (fun _ _ => Ret None) (fun _ _ => Ret tt)
       world_view None = Ret m /\
     zoom m = 10%Z /\ width m = 800%Z /\ height m = 600%Z /\
     _geo_to_pixel_b64 exact_ops m 0 0 = Ret (Z.quot 800 2, Z.quot 600 2)).
Proof.
  split.
  - destruct mock_render_returns_example as [m Hm].
    exists m. split; [exact Hm |].
    exact (mock_render_centre exact_ops example_extent (fun _ _ => Ret tt)
             world_view m (Some 0%Z) _ eq_refl eq_refl eq_refl eq_refl Hm).
  - eexists. split; [reflexivity |].
    destruct (mock_render_centre exact_ops (fun _ _ => Ret None)
                (fun _ _ => Ret tt) world_view _ None None
                eq_refl eq_refl eq_refl eq_refl eq_refl)
      as (Hz & Hw & Hh & Hc).
    split; [exact Hz |]. split; [exact Hw |]. split; [exact Hh |].
    exact (Hc (exact_ops_at_equator _)).
Defined.
